(** * markdown2html: a shallow embedding of [markdown2html.py]

    The script converts a restricted Markdown dialect to HTML one line at a
    time.  This development embeds

    - the Python string operations the script relies on ([str.startswith],
      slicing, [str.strip], [str.join], [str.encode]);
    - the regular-expression substitutions [re.sub] performs for the four
      inline patterns of the script (a literal opening delimiter, a lazy
      [(.*?)] group and a literal closing delimiter);
    - MD5 (RFC 1321), which [hashlib.md5] computes;
    - the line transformer [markdown_to_html_line] and the driver under
      [if __name__ == "__main__"].

    A Python [str] is a sequence of Unicode code points; it is modelled as a
    list of code points, each an [N].  A Python exception is modelled by the
    [Raise] constructor of [result]. *)

From Stdlib Require Import String Ascii.
From Stdlib Require Import List NArith Arith Lia Bool.
Import ListNotations.

Open Scope N_scope.

(** ** Strings *)

Definition char := N.
Definition str := list char.

(** An ASCII literal of the script, as a [str]. *)
Definition lit (s : string) : str :=
  map N_of_ascii (list_ascii_of_string s).
Arguments lit s%_string.

Definition LF : char := 10.
Definition SPACE : char := 32.
Definition HASH : char := 35.

(** [s.startswith(p)] *)
Fixpoint startswith (s p : str) {struct p} : bool :=
  match p, s with
  | [], _ => true
  | a :: p', b :: s' => (b =? a) && startswith s' p'
  | _ :: _, [] => false
  end.

(** [s == t] on strings. *)
Fixpoint str_eqb (s t : str) : bool :=
  match s, t with
  | [], [] => true
  | a :: s', b :: t' => (a =? b) && str_eqb s' t'
  | _, _ => false
  end.

(** The truth value of a string in [if html_line:]. *)
Definition truthy (s : str) : bool :=
  match s with [] => false | _ :: _ => true end.

(** [str.isspace] on one code point: the characters [str.strip()] removes
    (CPython's [_PyUnicode_IsWhitespace]). *)
Definition isspace (c : char) : bool :=
  ((0x09 <=? c) && (c <=? 0x0D)) || ((0x1C <=? c) && (c <=? 0x20))
  || (c =? 0x85) || (c =? 0xA0) || (c =? 0x1680)
  || ((0x2000 <=? c) && (c <=? 0x200A))
  || (c =? 0x2028) || (c =? 0x2029) || (c =? 0x202F) || (c =? 0x205F)
  || (c =? 0x3000).

(** [s.lstrip()], [s.rstrip()] and [s.strip()]. *)
Fixpoint lstrip (s : str) : str :=
  match s with
  | [] => []
  | c :: s' => if isspace c then lstrip s' else s
  end.

Definition rstrip (s : str) : str := rev (lstrip (rev s)).

Definition strip (s : str) : str := rstrip (lstrip s).

(** [sep.join(parts)] *)
Fixpoint join (sep : str) (parts : list str) : str :=
  match parts with
  | [] => []
  | [p] => p
  | p :: ps => p ++ sep ++ join sep ps
  end.

(** ['#' * level] *)
Definition hashes (level : nat) : str := repeat HASH level.

(** ** Exceptions *)

Inductive exn : Type :=
| UnicodeEncodeError (text : str)   (* [text.encode()] met a surrogate *)
| KeyError (key : nat)              (* missing key of [heading_levels] *)
| OSError (msg : str).              (* raised by [open], [readlines], [write] *)

Inductive result (A : Type) : Type :=
| Ok (a : A)
| Raise (e : exn).
Arguments Ok {A} a.
Arguments Raise {A} e.

Definition bind {A B} (r : result A) (k : A -> result B) : result B :=
  match r with
  | Ok a => k a
  | Raise e => Raise e
  end.

Notation "x <- r ;; k" := (bind r (fun x => k))
  (at level 61, r at next level, right associativity).

(** ** Regular-expression substitution

    Every pattern of the script has the shape [open(.*?)close] with two
    literal delimiters.  [.] matches any character but a line feed, and the
    lazy star takes the shortest group after which [close] matches. *)

Module Re.

(** The group of [(.*?)close] matched at the start of [s], if any. *)
Fixpoint lazy_group (close s : str) : option str :=
  if startswith s close then Some []
  else match s with
       | [] => None
       | c :: s' =>
         if c =? LF then None
         else match lazy_group close s' with
              | Some g => Some (c :: g)
              | None => None
              end
       end.

(** The group of a match of [open(.*?)close] anchored at the start of [s]. *)
Definition match_at (open close s : str) : option str :=
  if startswith s open then lazy_group close (skipn (length open) s)
  else None.

(** [re.sub] scans from the left: at a position where the pattern matches,
    the replacement is emitted and the scan resumes after the match; at any
    other position the character is copied.  [skip] counts the characters
    of the current match that are still to be passed over. *)
Fixpoint sub_from (open close : str) (repl : str -> result str)
         (skip : nat) (s : str) : result str :=
  match s with
  | [] => Ok []
  | c :: s' =>
    match skip with
    | S k => sub_from open close repl k s'
    | O =>
      match match_at open close s with
      | Some g =>
        x <- repl g ;;
        y <- sub_from open close repl
               (length open + length g + length close - 1) s' ;;
        Ok (x ++ y)
      | None =>
        y <- sub_from open close repl 0 s' ;;
        Ok (c :: y)
      end
    end
  end.

Definition sub (open close : str) (repl : str -> result str) (s : str)
  : result str :=
  sub_from open close repl 0 s.

(** [p] occurs in [s] as a substring ([p in s]). *)
Fixpoint occurs (p s : str) : bool :=
  startswith s p
  || match s with
     | [] => false
     | _ :: s' => occurs p s'
     end.

End Re.

(** ** UTF-8 ([str.encode()]) *)

Module Utf8.

Definition is_surrogate (c : char) : bool := (0xD800 <=? c) && (c <=? 0xDFFF).

(** A code point UTF-8 can encode: a Unicode scalar value. *)
Definition scalar (c : char) : bool :=
  (c <=? 0x10FFFF) && negb (is_surrogate c).

Definition encode_char (c : char) : option (list N) :=
  if c <? 0x80 then Some [c]
  else if c <? 0x800 then
    Some [N.lor 0xC0 (N.shiftr c 6); N.lor 0x80 (N.land c 0x3F)]
  else if c <? 0x10000 then
    if is_surrogate c then None
    else Some [N.lor 0xE0 (N.shiftr c 12);
               N.lor 0x80 (N.land (N.shiftr c 6) 0x3F);
               N.lor 0x80 (N.land c 0x3F)]
  else if c <=? 0x10FFFF then
    Some [N.lor 0xF0 (N.shiftr c 18);
          N.lor 0x80 (N.land (N.shiftr c 12) 0x3F);
          N.lor 0x80 (N.land (N.shiftr c 6) 0x3F);
          N.lor 0x80 (N.land c 0x3F)]
  else None.

Fixpoint encode_chars (s : str) : option (list N) :=
  match s with
  | [] => Some []
  | c :: s' =>
    match encode_char c, encode_chars s' with
    | Some bs, Some bs' => Some (bs ++ bs')
    | _, _ => None
    end
  end.

(** [text.encode()] *)
Definition encode (text : str) : result (list N) :=
  match encode_chars text with
  | Some bs => Ok bs
  | None => Raise (UnicodeEncodeError text)
  end.

End Utf8.

(** ** MD5 ([hashlib.md5], RFC 1321)

    Bytes and 32-bit words are [N]s; every word operation reduces modulo
    [2^32]. *)

Module MD5.

Definition add32 (a b : N) : N := (a + b) mod 2 ^ 32.
Definition not32 (a : N) : N := N.lxor a 0xFFFFFFFF.
Definition rotl32 (x c : N) : N :=
  N.lor (N.shiftl x c mod 2 ^ 32) (N.shiftr x (32 - c)).

(** Per-round shift amounts. *)
Definition S : list N :=
  [7; 12; 17; 22; 7; 12; 17; 22; 7; 12; 17; 22; 7; 12; 17; 22;
   5; 9; 14; 20; 5; 9; 14; 20; 5; 9; 14; 20; 5; 9; 14; 20;
   4; 11; 16; 23; 4; 11; 16; 23; 4; 11; 16; 23; 4; 11; 16; 23;
   6; 10; 15; 21; 6; 10; 15; 21; 6; 10; 15; 21; 6; 10; 15; 21].

(** [K[i] = floor(2^32 * abs(sin(i + 1)))] *)
Definition K : list N :=
  [0xd76aa478; 0xe8c7b756; 0x242070db; 0xc1bdceee;
   0xf57c0faf; 0x4787c62a; 0xa8304613; 0xfd469501;
   0x698098d8; 0x8b44f7af; 0xffff5bb1; 0x895cd7be;
   0x6b901122; 0xfd987193; 0xa679438e; 0x49b40821;
   0xf61e2562; 0xc040b340; 0x265e5a51; 0xe9b6c7aa;
   0xd62f105d; 0x02441453; 0xd8a1e681; 0xe7d3fbc8;
   0x21e1cde6; 0xc33707d6; 0xf4d50d87; 0x455a14ed;
   0xa9e3e905; 0xfcefa3f8; 0x676f02d9; 0x8d2a4c8a;
   0xfffa3942; 0x8771f681; 0x6d9d6122; 0xfde5380c;
   0xa4beea44; 0x4bdecfa9; 0xf6bb4b60; 0xbebfbc70;
   0x289b7ec6; 0xeaa127fa; 0xd4ef3085; 0x04881d05;
   0xd9d4d039; 0xe6db99e5; 0x1fa27cf8; 0xc4ac5665;
   0xf4292244; 0x432aff97; 0xab9423a7; 0xfc93a039;
   0x655b59c3; 0x8f0ccc92; 0xffeff47d; 0x85845dd1;
   0x6fa87e4f; 0xfe2ce6e0; 0xa3014314; 0x4e0811a1;
   0xf7537e82; 0xbd3af235; 0x2ad7d2bb; 0xeb86d391].

(** The [count] low bytes of [n], least significant first. *)
Fixpoint le_bytes (count : nat) (n : N) : list N :=
  match count with
  | O => []
  | Datatypes.S k => n mod 256 :: le_bytes k (n / 256)
  end.

(** The word spelled by little-endian bytes. *)
Fixpoint le_word (bs : list N) : N :=
  match bs with
  | [] => 0
  | b :: bs' => b + 256 * le_word bs'
  end.

(** Padding: a [0x80] byte, zeros up to 56 modulo 64, then the bit length
    of the message as a 64-bit little-endian number. *)
Definition pad (msg : list N) : list N :=
  let len := length msg in
  msg ++ [0x80] ++ repeat 0 ((119 - len mod 64) mod 64)
      ++ le_bytes 8 (8 * N.of_nat len mod 2 ^ 64).

(** The first [n] blocks of [size] items of [bs]. *)
Fixpoint blocks {A} (size n : nat) (bs : list A) : list (list A) :=
  match n with
  | O => []
  | Datatypes.S k => firstn size bs :: blocks size k (skipn size bs)
  end.

(** The sixteen words of a 64-byte block. *)
Definition words (block : list N) : list N :=
  map le_word (blocks 4 16 block).

Definition state : Type := N * N * N * N.

Definition init : state := (0x67452301, 0xefcdab89, 0x98badcfe, 0x10325476).

(** Operation [i] of the 64 of a block. *)
Definition step (M : list N) (st : state) (i : nat) : state :=
  let '(A, B, C, D) := st in
  let '(F, g) :=
    if (i <? 16)%nat then
      (N.lor (N.land B C) (N.land (not32 B) D), i)
    else if (i <? 32)%nat then
      (N.lor (N.land D B) (N.land (not32 D) C), ((5 * i + 1) mod 16)%nat)
    else if (i <? 48)%nat then
      (N.lxor (N.lxor B C) D, ((3 * i + 5) mod 16)%nat)
    else
      (N.lxor C (N.lor B (not32 D)), ((7 * i) mod 16)%nat) in
  let F' := add32 (add32 (add32 F A) (nth i K 0)) (nth g M 0) in
  (D, add32 B (rotl32 F' (nth i S 0)), B, C).

Definition process (st : state) (block : list N) : state :=
  let '(a0, b0, c0, d0) := st in
  let '(A, B, C, D) := fold_left (step (words block)) (seq 0 64) st in
  (add32 a0 A, add32 b0 B, add32 c0 C, add32 d0 D).

(** The 16-byte digest. *)
Definition digest (msg : list N) : list N :=
  let padded := pad msg in
  let '(A, B, C, D) :=
    fold_left process (blocks 64 (length padded / 64) padded) init in
  le_bytes 4 A ++ le_bytes 4 B ++ le_bytes 4 C ++ le_bytes 4 D.

(** A lowercase hexadecimal digit. *)
Definition hex_digit (d : N) : char :=
  if d <? 10 then 48 + d else 87 + d.

Definition hex_byte (b : N) : str := [hex_digit (b / 16); hex_digit (b mod 16)].

(** [hashlib.md5(msg).hexdigest()] *)
Definition hexdigest (msg : list N) : str := flat_map hex_byte (digest msg).

End MD5.

(** ** The line transformer *)

(** [md5_hash(content)] *)
Definition md5_hash (content : str) : result str :=
  bs <- Utf8.encode content ;;
  Ok (MD5.hexdigest bs).

(** [remove_c(content)]: [re.sub(r'[cC]', '', content)] *)
Definition remove_c (content : str) : str :=
  filter (fun ch => negb ((ch =? 99) || (ch =? 67))) content.

(** The dictionary [heading_levels]: the text before and after the [{}] of
    each template. *)
Definition heading_levels (level : nat) : option (str * str) :=
  match level with
  | 1%nat => Some (lit "<h1>", lit "</h1>")
  | 2%nat => Some (lit "<h2>", lit "</h2>")
  | 3%nat => Some (lit "<h3>", lit "</h3>")
  | 4%nat => Some (lit "<h4>", lit "</h4>")
  | 5%nat => Some (lit "<h5>", lit "</h5>")
  | 6%nat => Some (lit "<h6>", lit "</h6>")
  | _ => None
  end.

(** [template.format(arg)] for a template with one [{}]. *)
Definition format (template : str * str) (arg : str) : str :=
  fst template ++ arg ++ snd template.

(** What the transformer returns: the fragment and the three flags. *)
Definition line_result : Type := str * bool * bool * bool.

(** The loop [for level in range(6, 0, -1)]: [Some] is the [return] of the
    first level whose marker the line starts with, [None] means the loop
    ended without returning. *)
Fixpoint heading_loop (levels : list nat) (line : str)
  : option (result line_result) :=
  match levels with
  | [] => None
  | level :: rest =>
    if startswith line (hashes level ++ [SPACE]) then
      Some (match heading_levels level with
            | Some template =>
              Ok (format template (strip (skipn (level + 1) line)),
                  false, false, false)
            | None => Raise (KeyError level)
            end)
    else heading_loop rest line
  end.

(** [range(6, 0, -1)] *)
Definition range_6_0 : list nat := [6; 5; 4; 3; 2; 1]%nat.

(** Line 65: [re.sub(r'\*\*(.*?)\*\*', r'<b>\1</b>', line)] *)
Definition sub_bold (line : str) : result str :=
  Re.sub (lit "**") (lit "**")
    (fun g => Ok (lit "<b>" ++ g ++ lit "</b>")) line.

(** Line 68: [re.sub(r'__(.*?)__', r'<em>\1</em>', line)] *)
Definition sub_emphasis (line : str) : result str :=
  Re.sub (lit "__") (lit "__")
    (fun g => Ok (lit "<em>" ++ g ++ lit "</em>")) line.

(** Line 71: [re.sub(r'\[\[(.*?)\]\]', lambda match:
    md5_hash(match.group(1)), line)] *)
Definition sub_md5 (line : str) : result str :=
  Re.sub (lit "[[") (lit "]]") md5_hash line.

(** Line 74: [re.sub(r'\(\((.*?)\)\)', lambda match:
    remove_c(match.group(1)), line)] *)
Definition sub_remove_c (line : str) : result str :=
  Re.sub (lit "((") (lit "))") (fun g => Ok (remove_c g)) line.

(** Lines 64-74: the four inline substitutions, in the order of the
    assignments to [line]. *)
Definition inline_substitutions (line : str) : result str :=
  line <- sub_bold line ;;
  line <- sub_emphasis line ;;
  line <- sub_md5 line ;;
  line <- sub_remove_c line ;;
  Ok line.

(** Lines 76-111: the classification of the rewritten line. *)
Definition classify (line : str)
           (in_unordered_list in_ordered_list in_paragraph : bool)
  : result line_result :=
  match heading_loop range_6_0 line with
  | Some r => r
  | None =>
    if startswith line (lit "- ") then
      let list_item := lit "<li>" ++ strip (skipn 2 line) ++ lit "</li>" in
      if negb in_unordered_list then
        Ok (lit "<ul>" ++ [LF] ++ list_item, true, false, false)
      else
        Ok (list_item, true, false, false)
    else if startswith line (lit "* ") then
      let list_item := lit "<li>" ++ strip (skipn 2 line) ++ lit "</li>" in
      if negb in_ordered_list then
        Ok (lit "<ol>" ++ [LF] ++ list_item, false, true, false)
      else
        Ok (list_item, false, true, false)
    else if str_eqb line [] then
      if in_unordered_list then Ok (lit "</ul>", false, false, false)
      else if in_ordered_list then Ok (lit "</ol>", false, false, false)
      else if in_paragraph then Ok (lit "</p>", false, false, false)
      else Ok ([], false, false, false)
    else if negb in_paragraph then
      Ok (lit "<p>" ++ [LF] ++ lit "    " ++ line, false, false, true)
    else
      Ok (lit "    <br />" ++ [LF] ++ lit "    " ++ line, false, false, true)
  end.

(** [markdown_to_html_line(line, in_unordered_list, in_ordered_list,
    in_paragraph)] *)
Definition markdown_to_html_line (line : str)
           (in_unordered_list in_ordered_list in_paragraph : bool)
  : result line_result :=
  line <- inline_substitutions line ;;
  classify line in_unordered_list in_ordered_list in_paragraph.

(** ** The driver *)

(** The loop [for line in lines] over the accumulator [html_content] and
    the three flags. *)
Fixpoint scan (lines : list str) (html_content : list str)
         (in_unordered_list in_ordered_list in_paragraph : bool)
  : result (list str * bool * bool * bool) :=
  match lines with
  | [] => Ok (html_content, in_unordered_list, in_ordered_list, in_paragraph)
  | line :: rest =>
    r <- markdown_to_html_line (strip line)
           in_unordered_list in_ordered_list in_paragraph ;;
    let '(html_line, in_unordered_list, in_ordered_list, in_paragraph) := r in
    let html_content :=
      if truthy html_line then html_content ++ [html_line]
      else html_content in
    scan rest html_content in_unordered_list in_ordered_list in_paragraph
  end.

(** Lines 145-151: the three [if] statements after the loop. *)
Definition close_open_blocks (html_content : list str)
           (in_unordered_list in_ordered_list in_paragraph : bool)
  : list str :=
  let html_content :=
    if in_unordered_list then html_content ++ [lit "</ul>"]
    else html_content in
  let html_content :=
    if in_ordered_list then html_content ++ [lit "</ol>"]
    else html_content in
  let html_content :=
    if in_paragraph then html_content ++ [lit "</p>"]
    else html_content in
  html_content.

(** Lines 135-151: the fragments of a document given as the lines that
    [readlines] returned. *)
Definition convert (lines : list str) : result (list str) :=
  r <- scan lines [] false false false ;;
  let '(html_content, in_unordered_list, in_ordered_list, in_paragraph) := r in
  Ok (close_open_blocks html_content
        in_unordered_list in_ordered_list in_paragraph).

(** What the script can observe of its environment. *)
Record World : Type := {
  isfile : str -> bool;                  (* [os.path.isfile] *)
  readlines : str -> result (list str);  (* [open(p, 'r')] and [readlines()] *)
  write : str -> str -> result unit;     (* [open(p, 'w')] and [write(text)] *)
  exn_str : exn -> str                   (* [str(e)] *)
}.

(** A world without any file. *)
Definition empty_world : World :=
  {| isfile := fun _ => false;
     readlines := fun _ => Raise (OSError (lit "No such file or directory"));
     write := fun _ _ => Raise (OSError (lit "No such file or directory"));
     exn_str := fun e =>
       match e with
       | OSError msg => msg
       | _ => []
       end |}.

(** A world whose only file is [path], read as [lines]; every write
    succeeds. *)
Definition one_file_world (path : str) (lines : list str) : World :=
  {| isfile := fun p => str_eqb p path;
     readlines := fun p =>
       if str_eqb p path then Ok lines
       else Raise (OSError (lit "No such file or directory"));
     write := fun _ _ => Ok tt;
     exn_str := fun e =>
       match e with
       | OSError msg => msg
       | _ => []
       end |}.

(** What the script does to its environment. *)
Inductive event : Type :=
| Stderr (text : str)
| OpenRead (path : str)
| OpenWrite (path : str) (text : str).

(** A run: the events in order and the exit status. *)
Definition outcome : Type := list event * N.

Definition usage : str :=
  lit "Usage: ./markdown2html.py README.md README.html" ++ [LF].

(** The body of [if __name__ == "__main__"] for [sys.argv = argv]. *)
Definition main (w : World) (argv : list str) : outcome :=
  if (length argv <? 3)%nat then ([Stderr usage], 1)
  else
    let markdown_file := nth 1 argv [] in
    let html_file := nth 2 argv [] in
    if negb (isfile w markdown_file) then
      ([Stderr (lit "Missing " ++ markdown_file ++ [LF])], 1)
    else
      match readlines w markdown_file with
      | Raise e => ([OpenRead markdown_file; Stderr (exn_str w e ++ [LF])], 1)
      | Ok lines =>
        match convert lines with
        | Raise e =>
          ([OpenRead markdown_file; Stderr (exn_str w e ++ [LF])], 1)
        | Ok html_content =>
          let text := join [LF] html_content in
          match write w html_file text with
          | Raise e =>
            ([OpenRead markdown_file; OpenWrite html_file text;
              Stderr (exn_str w e ++ [LF])], 1)
          | Ok _ => ([OpenRead markdown_file; OpenWrite html_file text], 0)
          end
        end
      end.

(** ** Notions of the specification *)

(** At most one of the three flags of a scan state is set. *)
Definition at_most_one (in_unordered_list in_ordered_list in_paragraph : bool)
  : bool :=
  negb (in_unordered_list && in_ordered_list)
  && negb (in_unordered_list && in_paragraph)
  && negb (in_ordered_list && in_paragraph).

(** A string [str.encode()] accepts: Unicode scalar values only. *)
Definition encodable (s : str) : bool := forallb Utf8.scalar s.

Definition scalars (s : str) : Prop :=
  Forall (fun c => Utf8.scalar c = true) s.

(** The characters the dialect gives a meaning to:
    [#], [-], [*], [_], [[], []], [(] and [)]. *)
Definition special (c : char) : bool :=
  (c =? 35) || (c =? 45) || (c =? 42) || (c =? 95)
  || (c =? 91) || (c =? 93) || (c =? 40) || (c =? 41).

(** A string without special characters. *)
Definition plain (s : str) : bool := forallb (fun c => negb (special c)) s.

(** A line of the document that is empty once stripped. *)
Definition blank (line : str) : bool := str_eqb (strip line) [].

(** Paragraph text: a rewritten line that is no heading, no list item and
    not empty. *)
Definition paragraph_text (line : str) : bool :=
  match heading_loop range_6_0 line with
  | Some _ => false
  | None =>
    negb (startswith line (lit "- ")) && negb (startswith line (lit "* "))
    && negb (str_eqb line [])
  end.

(** The single closing tag of the block a state has open, in the priority
    unordered list, ordered list, paragraph; none when no block is open. *)
Definition closing_tag (in_unordered_list in_ordered_list in_paragraph : bool)
  : list str :=
  if in_unordered_list then [lit "</ul>"]
  else if in_ordered_list then [lit "</ol>"]
  else if in_paragraph then [lit "</p>"]
  else [].

(** The maximal runs of consecutive non-blank lines of a document; [cur] is
    the run being collected. *)
Definition flush (cur : list str) : list (list str) :=
  match cur with
  | [] => []
  | _ :: _ => [cur]
  end.

Fixpoint runs_from (cur : list str) (lines : list str) : list (list str) :=
  match lines with
  | [] => flush cur
  | line :: rest =>
    if blank line then flush cur ++ runs_from [] rest
    else runs_from (cur ++ [line]) rest
  end.

Definition runs (lines : list str) : list (list str) := runs_from [] lines.

(** The fragments of a paragraph that is still open: the first line opens
    [<p>], every further line is preceded by [<br />]. *)
Definition open_paragraph (run : list str) : list str :=
  match run with
  | [] => []
  | line :: more =>
    (lit "<p>" ++ [LF] ++ lit "    " ++ strip line)
    :: map (fun l => lit "    <br />" ++ [LF] ++ lit "    " ++ strip l) more
  end.

(** The fragments of the [<p>...</p>] block of a run of lines. *)
Definition paragraph_block (run : list str) : list str :=
  match run with
  | [] => []
  | _ :: _ => open_paragraph run ++ [lit "</p>"]
  end.

(** A lowercase hexadecimal digit, [0-9a-f]. *)
Definition is_hex (c : char) : bool :=
  ((48 <=? c) && (c <=? 57)) || ((97 <=? c) && (c <=? 102)).

(** The decimal digit of a heading level. *)
Definition digit (level : nat) : char := 48 + N.of_nat level.

(** The element [<hL>text</hL>]. *)
Definition heading (level : nat) (text : str) : str :=
  lit "<h" ++ [digit level] ++ lit ">" ++ text
  ++ lit "</h" ++ [digit level] ++ lit ">".

(** ** Notions for the behaviour of the script *)

(** The fragment of the paragraph rule for a rewritten line. *)
Definition paragraph_fragment (in_paragraph : bool) (line : str) : str :=
  (if in_paragraph then lit "    <br />" else lit "<p>")
  ++ [LF] ++ lit "    " ++ line.

(** The fragment of a list rule: the item, after the opening tag when the
    list is not open yet. *)
Definition item_fragment (tag : string) (open : bool) (text : str) : str :=
  (if open then [] else lit tag ++ [LF])
  ++ lit "<li>" ++ text ++ lit "</li>".

(** The three flags of a result, [None] for an exception. *)
Definition flags_of (r : result line_result) : option (bool * bool * bool) :=
  match r with
  | Ok (_, ul, ol, p) => Some (ul, ol, p)
  | Raise _ => None
  end.

(** The last event of a run is a line on the error stream. *)
Definition ends_with_error_line (events : list event) : Prop :=
  exists (before : list event) (msg : str),
    events = before ++ [Stderr (msg ++ [LF])].

(** A text whose last character is a line feed. *)
Definition ends_with_line_feed (s : str) : bool :=
  match rev s with
  | c :: _ => c =? LF
  | [] => false
  end.

(** A text without line feed. *)
Definition no_line_feed (s : str) : Prop := Forall (fun c => c <> LF) s.

(** * Properties *)

(** ** MD5 test vectors (RFC 1321, appendix A.5) *)

Example md5_empty :
  MD5.hexdigest [] = lit "d41d8cd98f00b204e9800998ecf8427e".
Proof. vm_compute. reflexivity. Qed.

Example md5_a :
  MD5.hexdigest [97] = lit "0cc175b9c0f1b6a831c399e269772661".
Proof. vm_compute. reflexivity. Qed.

Example md5_abc :
  MD5.hexdigest [97; 98; 99] = lit "900150983cd24fb0d6963f7d28e17f72".
Proof. vm_compute. reflexivity. Qed.

Example md5_digits :
  MD5.hexdigest
    (lit "12345678901234567890123456789012345678901234567890123456789012345678901234567890")
  = lit "57edf4a22be3c955ac49da2e2107b67a".
Proof. vm_compute. reflexivity. Qed.

(** Messages of 55, 56, 62 and 64 bytes, around the padding boundary. *)

Example md5_alphanumeric :
  MD5.hexdigest
    (lit "ABCDEFGHIJKLMNOPQRSTUVWXYZabcdefghijklmnopqrstuvwxyz0123456789")
  = lit "d174ab98d277d9f5a5611c2c9f419d9f".
Proof. vm_compute. reflexivity. Qed.

Example md5_padding_boundary :
  MD5.hexdigest (repeat 97 55) = lit "ef1772b6dff9a122358552954ad0df65"
  /\ MD5.hexdigest (repeat 97 56) = lit "3b0c8ac703f828b04c6c197006d17218"
  /\ MD5.hexdigest (repeat 97 64) = lit "014842d480b571495a4a0363793f7367".
Proof. vm_compute. repeat split. Qed.

(** [str.encode()] and [md5_hash] on characters of one to four bytes. *)

Example encode_multibyte :
  Utf8.encode [0x6e; 0x61; 0xef; 0x76; 0x65; 0x20; 0x20ac; 0x1f600]
  = Ok [0x6e; 0x61; 0xc3; 0xaf; 0x76; 0x65; 0x20; 0xe2; 0x82; 0xac;
        0xf0; 0x9f; 0x98; 0x80].
Proof. vm_compute. reflexivity. Qed.

Example md5_hash_multibyte :
  md5_hash [0x6e; 0x61; 0xef; 0x76; 0x65; 0x20; 0x20ac; 0x1f600]
  = Ok (lit "1c706cf05d784b8de3db659dc8d4d89d").
Proof. vm_compute. reflexivity. Qed.

Example md5_hash_surrogate :
  md5_hash [97; 0xD800] = Raise (UnicodeEncodeError [97; 0xD800]).
Proof. vm_compute. reflexivity. Qed.

(** ** The result monad *)

Lemma bind_ret {A} (r : result A) : bind r Ok = r.
Proof. destruct r; reflexivity. Qed.

(** ** Strings *)

Lemma startswith_app (p s : str) : startswith (p ++ s) p = true.
Proof.
  induction p as [|a p IH]; simpl; [reflexivity|].
  rewrite N.eqb_refl. exact IH.
Qed.

Lemma startswith_spec (s p : str) :
  startswith s p = true <-> exists t, s = p ++ t.
Proof.
  split.
  - revert s; induction p as [|a p IH]; intros s H.
    + exists s. reflexivity.
    + destruct s as [|b s]; simpl in H; [discriminate|].
      apply andb_true_iff in H. destruct H as [Hb Hs].
      apply N.eqb_eq in Hb. subst b.
      destruct (IH _ Hs) as [t ->]. exists t. reflexivity.
  - intros [t ->]. apply startswith_app.
Qed.

Lemma startswith_head (a b : char) (s p : str) :
  b <> a -> startswith (b :: s) (a :: p) = false.
Proof.
  intros H. simpl. apply N.eqb_neq in H. rewrite H. reflexivity.
Qed.

Lemma str_eqb_nil (s : str) : str_eqb s [] = true <-> s = [].
Proof. destruct s; simpl; split; congruence. Qed.

Lemma lstrip_spaces (s : str) : forallb isspace s = true -> lstrip s = [].
Proof.
  induction s as [|c s IH]; simpl; [reflexivity|].
  intros H. apply andb_true_iff in H. destruct H as [Hc Hs].
  rewrite Hc. auto.
Qed.

Lemma strip_spaces (s : str) : forallb isspace s = true -> strip s = [].
Proof.
  intros H. unfold strip, rstrip. rewrite (lstrip_spaces s H). reflexivity.
Qed.

(** Stripping keeps a contiguous part of the string. *)
Lemma lstrip_suffix (s : str) : exists pre, s = pre ++ lstrip s.
Proof.
  induction s as [|c s [pre IH]]; simpl.
  - exists []. reflexivity.
  - destruct (isspace c).
    + exists (c :: pre). simpl. congruence.
    + exists []. reflexivity.
Qed.

Lemma strip_infix (s : str) : exists pre post, s = pre ++ strip s ++ post.
Proof.
  unfold strip, rstrip.
  destruct (lstrip_suffix s) as [pre Hpre].
  destruct (lstrip_suffix (rev (lstrip s))) as [q Hq].
  exists pre, (rev q).
  rewrite <- rev_app_distr, <- Hq, rev_involutive. exact Hpre.
Qed.

Lemma strip_In (s : str) (c : char) : In c (strip s) -> In c s.
Proof.
  destruct (strip_infix s) as (pre & post & H). intros Hc.
  rewrite H. apply in_or_app. right. apply in_or_app. left. exact Hc.
Qed.

Lemma strip_Forall (P : char -> Prop) (s : str) :
  Forall P s -> Forall P (strip s).
Proof.
  rewrite !Forall_forall. intros H c Hc. apply H, strip_In, Hc.
Qed.

(** ** Regular-expression substitution *)

Section ReFacts.

Variables open close : str.
Variable repl : str -> result str.

Local Abbreviation sub := (Re.sub open close repl).
Local Abbreviation sub_from := (Re.sub_from open close repl).

(** Passing over [k] characters is resuming after them. *)
Lemma sub_from_skipn (k : nat) (s : str) :
  sub_from k s = sub_from 0 (skipn k s).
Proof.
  revert k; induction s as [|c s IH]; intros k.
  - rewrite skipn_nil. destruct k; reflexivity.
  - destruct k as [|k]; [reflexivity|]. simpl. apply IH.
Qed.

Lemma sub_nil : sub [] = Ok [].
Proof. reflexivity. Qed.

(** Where the pattern does not match, the character is copied. *)
Lemma sub_copy (c : char) (s : str) :
  Re.match_at open close (c :: s) = None ->
  sub (c :: s) = (y <- sub s ;; Ok (c :: y)).
Proof.
  intros H. unfold sub, Re.sub. simpl. rewrite H. reflexivity.
Qed.

(** Where it matches, the replacement of the group is emitted and the scan
    resumes after the closing delimiter. *)
Lemma sub_match (s g : str) :
  open <> [] ->
  Re.match_at open close s = Some g ->
  sub s = (x <- repl g ;;
           y <- sub (skipn (length open + length g + length close) s) ;;
           Ok (x ++ y)).
Proof.
  intros Hopen H. destruct s as [|c s].
  - unfold Re.match_at in H. destruct open; [congruence|discriminate].
  - unfold sub, Re.sub. simpl. rewrite H.
    rewrite sub_from_skipn.
    destruct open as [|o open']; [congruence|]. simpl.
    rewrite Nat.sub_0_r. reflexivity.
Qed.

(** The group of a match is what stands between the delimiters, and has no
    line feed. *)
Lemma lazy_group_spec (s g : str) :
  Re.lazy_group close s = Some g ->
  ~ In LF g /\ exists rest, s = g ++ close ++ rest.
Proof.
  revert g; induction s as [|c s IH]; intros g; simpl.
  - destruct (startswith [] close) eqn:E; [|discriminate].
    intros [= <-]. split; [intros []|]. apply startswith_spec in E. exact E.
  - destruct (startswith (c :: s) close) eqn:E.
    + intros [= <-]. split; [intros []|]. apply startswith_spec in E. exact E.
    + destruct (c =? LF) eqn:Ec; [discriminate|].
      destruct (Re.lazy_group close s) as [g'|]; [|discriminate].
      intros [= <-]. destruct (IH _ eq_refl) as [Hlf [rest Hs]].
      split.
      * intros [Hc | Hin]; [|exact (Hlf Hin)].
        apply N.eqb_neq in Ec. congruence.
      * exists rest. simpl. congruence.
Qed.

Lemma match_at_spec (s g : str) :
  Re.match_at open close s = Some g ->
  ~ In LF g /\ exists rest, s = open ++ g ++ close ++ rest.
Proof.
  unfold Re.match_at. destruct (startswith s open) eqn:E; [|discriminate].
  apply startswith_spec in E. destruct E as [t ->].
  rewrite skipn_app, skipn_all, Nat.sub_diag. simpl.
  intros H. apply lazy_group_spec in H. destruct H as [Hlf [rest ->]].
  split; [exact Hlf|]. exists rest. reflexivity.
Qed.

Lemma match_at_Forall (P : char -> Prop) (s g : str) :
  Re.match_at open close s = Some g -> Forall P s -> Forall P g.
Proof.
  intros H Hs. apply match_at_spec in H. destruct H as [_ [rest ->]].
  apply Forall_app in Hs. destruct Hs as [_ Hs].
  apply Forall_app in Hs. tauto.
Qed.

(** A substitution whose replacement cannot raise on the groups of the
    string returns. *)
Lemma sub_from_total (P : char -> Prop) :
  (forall g, Forall P g -> exists x, repl g = Ok x) ->
  forall s k, Forall P s -> exists y, sub_from k s = Ok y.
Proof.
  intros Hrepl. induction s as [|c s IH]; intros k Hs.
  - exists []. reflexivity.
  - pose proof Hs as Hcs. apply Forall_cons_iff in Hs. destruct Hs as [_ Hs].
    destruct k as [|k]; simpl; [|apply IH, Hs].
    destruct (Re.match_at open close (c :: s)) as [g|] eqn:E.
    + destruct (Hrepl g (match_at_Forall P _ _ E Hcs)) as [x ->].
      destruct (IH (length open + length g + length close - 1)%nat Hs)
        as [y ->].
      eexists. reflexivity.
    + destruct (IH 0%nat Hs) as [y ->].
      eexists. reflexivity.
Qed.

(** The characters of the result come from the string and from the
    replacements. *)
Lemma sub_from_Forall (P : char -> Prop) :
  (forall g x, Forall P g -> repl g = Ok x -> Forall P x) ->
  forall s k y, Forall P s -> sub_from k s = Ok y -> Forall P y.
Proof.
  intros Hrepl. induction s as [|c s IH]; intros k y Hs.
  - intros [= <-]. constructor.
  - pose proof Hs as Hcs. apply Forall_cons_iff in Hs. destruct Hs as [Hc Hs].
    destruct k as [|k]; simpl; [|apply IH, Hs].
    destruct (Re.match_at open close (c :: s)) as [g|] eqn:E.
    + destruct (repl g) as [x|e] eqn:Ex; [|discriminate]. simpl.
      destruct (sub_from (length open + length g + length close - 1)%nat s)
        as [y'|e] eqn:Ey; [|discriminate].
      intros [= <-]. apply Forall_app. split.
      * apply (Hrepl g); [exact (match_at_Forall P _ _ E Hcs)|exact Ex].
      * exact (IH _ _ Hs Ey).
    + destruct (sub_from 0%nat s) as [y'|e] eqn:Ey; [|discriminate].
      intros [= <-]. constructor; [exact Hc|]. exact (IH _ _ Hs Ey).
Qed.

End ReFacts.

(** The patterns of the script have two-character delimiters. *)

Section TwoCharDelimiters.

Variables o1 o2 c1 c2 : char.
Variable repl : str -> result str.

Local Abbreviation open := [o1; o2].
Local Abbreviation close := [c1; c2].
Local Abbreviation sub := (Re.sub open close repl).

(** A string in which the first delimiter character is absent is left as
    it is. *)
Lemma sub_absent (s : str) : ~ In o1 s -> sub s = Ok s.
Proof.
  induction s as [|c s IH]; intros H; [reflexivity|].
  rewrite sub_copy.
  - rewrite IH; [reflexivity|]. intros Hin. apply H. right. exact Hin.
  - unfold Re.match_at. rewrite startswith_head; [reflexivity|].
    intros ->. apply H. left. reflexivity.
Qed.

(** The pattern cannot match inside a prefix that the opening delimiter
    does not reach into: the prefix is copied. *)
Lemma sub_prefix (pre s : str) :
  Re.occurs open (pre ++ [o2]) = false ->
  sub (pre ++ s) = (y <- sub s ;; Ok (pre ++ y)).
Proof.
  induction pre as [|c pre IH]; intros H.
  - simpl. rewrite bind_ret. reflexivity.
  - simpl in H. apply orb_false_iff in H. destruct H as [Hc Hpre].
    simpl app. rewrite sub_copy.
    + rewrite (IH Hpre). destruct (sub s); reflexivity.
    + unfold Re.match_at.
      replace (startswith (c :: pre ++ s) open) with false; [reflexivity|].
      symmetry. destruct pre as [|d pre]; simpl in Hc |- *.
      * destruct (c =? o1); [|reflexivity].
        rewrite N.eqb_refl in Hc. discriminate.
      * destruct (c =? o1); [|reflexivity]. simpl in *.
        destruct (d =? o2); [discriminate|reflexivity].
Qed.

(** The lazy group ends at the first closing delimiter. *)
Lemma lazy_group_found (g rest : str) :
  ~ In LF g ->
  Re.occurs close (g ++ [c1]) = false ->
  Re.lazy_group close (g ++ close ++ rest) = Some g.
Proof.
  induction g as [|c g IH]; intros Hlf H.
  - simpl. rewrite !N.eqb_refl. simpl. destruct rest; reflexivity.
  - simpl in H. apply orb_false_iff in H. destruct H as [Hc Hg].
    assert (Hs : startswith ((c :: g) ++ close ++ rest) close = false).
    { destruct g as [|d g]; simpl in Hc |- *.
      - exact Hc.
      - destruct (c =? c1); [|reflexivity]. simpl in *.
        destruct (d =? c2); [discriminate|reflexivity]. }
    change (Re.lazy_group close ((c :: g) ++ close ++ rest))
      with (if startswith ((c :: g) ++ close ++ rest) close then Some []
            else if c =? LF then None
                 else match Re.lazy_group close (g ++ close ++ rest) with
                      | Some g' => Some (c :: g')
                      | None => None
                      end).
    rewrite Hs.
    replace (c =? LF) with false.
    + rewrite IH; [reflexivity| |exact Hg].
      intros Hin. apply Hlf. right. exact Hin.
    + symmetry. apply N.eqb_neq. intros ->. apply Hlf. left. reflexivity.
Qed.

(** A delimited span whose body has no line feed and no earlier closing
    delimiter is matched with that body as its group. *)
Lemma match_at_found (g rest : str) :
  ~ In LF g ->
  Re.occurs close (g ++ [c1]) = false ->
  Re.match_at open close (open ++ g ++ close ++ rest) = Some g.
Proof.
  intros Hlf H. unfold Re.match_at. simpl startswith.
  rewrite !N.eqb_refl. simpl. apply lazy_group_found; assumption.
Qed.

(** The span is replaced, the text before it is untouched and the scan
    goes on after it. *)
Lemma sub_span (pre g rest : str) :
  Re.occurs open (pre ++ [o2]) = false ->
  ~ In LF g ->
  Re.occurs close (g ++ [c1]) = false ->
  sub (pre ++ open ++ g ++ close ++ rest)
  = (x <- repl g ;; y <- sub rest ;; Ok (pre ++ x ++ y)).
Proof.
  intros Hpre Hlf Hg. rewrite sub_prefix by exact Hpre.
  rewrite (sub_match open close repl _ g); [|discriminate|].
  - replace (skipn _ (open ++ g ++ close ++ rest)) with rest.
    + destruct (repl g); [|reflexivity]. simpl.
      destruct (sub rest); reflexivity.
    + replace (length open + length g + length close)%nat
        with (length (open ++ g ++ close))
        by (rewrite !length_app; simpl; lia).
      replace (open ++ g ++ close ++ rest) with ((open ++ g ++ close) ++ rest)
        by (rewrite <- !app_assoc; reflexivity).
      rewrite skipn_app, skipn_all, Nat.sub_diag. reflexivity.
  - apply match_at_found; assumption.
Qed.

End TwoCharDelimiters.

(** ** The inline substitutions *)

Lemma encodable_Forall (s : str) :
  encodable s = true <-> Forall (fun c => Utf8.scalar c = true) s.
Proof. unfold encodable. rewrite forallb_forall, Forall_forall. tauto. Qed.

Lemma encode_char_scalar (c : char) :
  Utf8.scalar c = true -> exists bs, Utf8.encode_char c = Some bs.
Proof.
  unfold Utf8.scalar, Utf8.encode_char. intros H.
  apply andb_true_iff in H. destruct H as [Hmax Hsur].
  apply negb_true_iff in Hsur. rewrite Hsur, Hmax.
  destruct (c <? 128); [eexists; reflexivity|].
  destruct (c <? 2048); [eexists; reflexivity|].
  destruct (c <? 65536); eexists; reflexivity.
Qed.

(** [str.encode()] accepts every string of scalar values. *)
Lemma encode_total (s : str) :
  encodable s = true -> exists bs, Utf8.encode s = Ok bs.
Proof.
  intros H. unfold Utf8.encode.
  assert (E : exists bs, Utf8.encode_chars s = Some bs).
  { induction s as [|c s IH]; [eexists; reflexivity|].
    simpl in H. apply andb_true_iff in H. destruct H as [Hc Hs].
    destruct (encode_char_scalar c Hc) as [bs Hbs].
    destruct (IH Hs) as [bs' Hbs'].
    simpl. rewrite Hbs, Hbs'. eexists. reflexivity. }
  destruct E as [bs ->]. eexists. reflexivity.
Qed.

(** A digest is 16 bytes, shown as lowercase hexadecimal digits. *)
Lemma le_bytes_byte (count : nat) (n : N) :
  Forall (fun b => b < 256) (MD5.le_bytes count n).
Proof.
  revert n; induction count as [|k IH]; intros n; simpl; constructor.
  - apply N.mod_lt. discriminate.
  - apply IH.
Qed.

Lemma digest_bytes (msg : list N) :
  Forall (fun b => b < 256) (MD5.digest msg).
Proof.
  unfold MD5.digest.
  destruct (fold_left MD5.process _ MD5.init) as [[[A B] C] D].
  rewrite !Forall_app. repeat split; apply le_bytes_byte.
Qed.

Lemma hex_digit_is_hex (d : N) : d < 16 -> is_hex (MD5.hex_digit d) = true.
Proof.
  intros H. unfold MD5.hex_digit, is_hex.
  destruct (d <? 10) eqn:E.
  - apply N.ltb_lt in E. apply orb_true_iff. left.
    apply andb_true_iff. split; apply N.leb_le; lia.
  - apply N.ltb_ge in E. apply orb_true_iff. right.
    apply andb_true_iff. split; apply N.leb_le; lia.
Qed.

Lemma hexdigest_is_hex (msg : list N) :
  Forall (fun c => is_hex c = true) (MD5.hexdigest msg).
Proof.
  unfold MD5.hexdigest. pose proof (digest_bytes msg) as H.
  induction H as [|b bs Hb _ IH]; simpl; [constructor|].
  constructor; [|constructor; [|exact IH]].
  - apply hex_digit_is_hex.
    apply N.Div0.div_lt_upper_bound. exact Hb.
  - apply hex_digit_is_hex. apply N.mod_lt. discriminate.
Qed.

Lemma le_bytes_length (count : nat) (n : N) :
  length (MD5.le_bytes count n) = count.
Proof.
  revert n; induction count as [|k IH]; intros n; simpl; [reflexivity|].
  rewrite IH. reflexivity.
Qed.

Lemma hexdigest_length (msg : list N) : length (MD5.hexdigest msg) = 32%nat.
Proof.
  unfold MD5.hexdigest.
  assert (L : length (MD5.digest msg) = 16%nat).
  { unfold MD5.digest.
    destruct (fold_left MD5.process _ MD5.init) as [[[A B] C] D].
    rewrite !length_app, !le_bytes_length. reflexivity. }
  assert (H : forall bs, length (flat_map MD5.hex_byte bs)
                         = (2 * length bs)%nat).
  { induction bs as [|b bs IH]; simpl; [reflexivity|]. rewrite IH. lia. }
  rewrite H, L. reflexivity.
Qed.

Lemma is_hex_scalar (c : char) : is_hex c = true -> Utf8.scalar c = true.
Proof.
  unfold is_hex, Utf8.scalar, Utf8.is_surrogate. intros H.
  apply orb_true_iff in H.
  destruct H as [H|H]; apply andb_true_iff in H; destruct H as [H1 H2];
    apply N.leb_le in H1, H2;
    apply andb_true_iff; split.
  - apply N.leb_le. lia.
  - apply negb_true_iff, andb_false_iff. left. apply N.leb_gt. lia.
  - apply N.leb_le. lia.
  - apply negb_true_iff, andb_false_iff. left. apply N.leb_gt. lia.
Qed.

Lemma sub_scalars (open close : str) (repl : str -> result str) :
  (forall g, scalars g -> exists x, repl g = Ok x /\ scalars x) ->
  forall s, scalars s ->
  exists y, Re.sub open close repl s = Ok y /\ scalars y.
Proof.
  intros Hrepl s Hs.
  destruct (sub_from_total open close repl (fun c => Utf8.scalar c = true))
    with (s := s) (k := 0%nat) as [y Hy].
  - intros g Hg. destruct (Hrepl g Hg) as [x [Hx _]]. exists x. exact Hx.
  - exact Hs.
  - exists y. split; [exact Hy|].
    apply (sub_from_Forall open close repl (fun c => Utf8.scalar c = true))
      with (s := s) (k := 0%nat); [|exact Hs|exact Hy].
    intros g x Hg Hx. destruct (Hrepl g Hg) as [x' [Hx' Hsc]].
    rewrite Hx in Hx'. injection Hx' as <-. exact Hsc.
Qed.

Lemma scalars_tagged (before after g : string) (body : str) :
  scalars (lit before) -> scalars (lit after) -> scalars body ->
  scalars (lit before ++ body ++ lit after).
Proof.
  intros Hb Ha Hg. unfold scalars. rewrite !Forall_app. tauto.
Qed.

Lemma remove_c_Forall (P : char -> Prop) (s : str) :
  Forall P s -> Forall P (remove_c s).
Proof.
  unfold remove_c. rewrite !Forall_forall. intros H c Hc.
  apply filter_In in Hc. apply H, Hc.
Qed.

(** The substitutions return on every line of scalar values. *)
Lemma inline_substitutions_total (line : str) :
  encodable line = true ->
  exists line', inline_substitutions line = Ok line' /\ scalars line'.
Proof.
  intros H. apply encodable_Forall in H. unfold inline_substitutions.
  destruct (sub_scalars (lit "**") (lit "**")
              (fun g => Ok (lit "<b>" ++ g ++ lit "</b>"))) with (s := line)
    as [l1 [E1 H1]]; [|exact H|].
  { intros g Hg. eexists. split; [reflexivity|].
    apply scalars_tagged; [repeat constructor..|exact Hg]. }
  destruct (sub_scalars (lit "__") (lit "__")
              (fun g => Ok (lit "<em>" ++ g ++ lit "</em>"))) with (s := l1)
    as [l2 [E2 H2]]; [|exact H1|].
  { intros g Hg. eexists. split; [reflexivity|].
    apply scalars_tagged; [repeat constructor..|exact Hg]. }
  destruct (sub_scalars (lit "[[") (lit "]]") md5_hash) with (s := l2)
    as [l3 [E3 H3]]; [|exact H2|].
  { intros g Hg. apply encodable_Forall in Hg.
    unfold md5_hash. destruct (encode_total g Hg) as [bs ->].
    eexists. split; [reflexivity|].
    eapply Forall_impl; [|apply hexdigest_is_hex].
    intros c. apply is_hex_scalar. }
  destruct (sub_scalars (lit "((") (lit "))")
              (fun g => Ok (remove_c g))) with (s := l3)
    as [l4 [E4 H4]]; [|exact H3|].
  { intros g Hg. eexists. split; [reflexivity|].
    apply remove_c_Forall, Hg. }
  exists l4. unfold sub_bold, sub_emphasis, sub_md5, sub_remove_c.
  rewrite E1. cbn [bind]. rewrite E2. cbn [bind]. rewrite E3. cbn [bind].
  rewrite E4.
  split; [reflexivity|exact H4].
Qed.

(** ** The classification *)

(** Every [return] of the heading loop clears the three flags. *)
Lemma heading_loop_flags (line : str) (r : result line_result) :
  heading_loop range_6_0 line = Some r ->
  exists fragment, r = Ok (fragment, false, false, false).
Proof.
  unfold range_6_0. simpl.
  repeat match goal with
         | |- context [if ?b then _ else _] => destruct b
         end;
    intros [= <-]; eexists; reflexivity.
Qed.

(** Every [return] of the classification sets at most one flag. *)
Lemma classify_at_most_one (line : str) (ul ol p : bool) :
  exists fragment ul' ol' p',
    classify line ul ol p = Ok (fragment, ul', ol', p')
    /\ at_most_one ul' ol' p' = true.
Proof.
  unfold classify.
  destruct (heading_loop range_6_0 line) as [r|] eqn:E.
  - destruct (heading_loop_flags line r E) as [fragment ->].
    repeat eexists.
  - repeat match goal with
           | |- context [if ?b then _ else _] => destruct b
           end;
      repeat eexists.
Qed.

(** ** The transformer *)

Lemma transformer_at_most_one (line : str) (ul ol p : bool) :
  match markdown_to_html_line line ul ol p with
  | Ok (_, ul', ol', p') => at_most_one ul' ol' p' = true
  | Raise _ => encodable line = false
  end.
Proof.
  unfold markdown_to_html_line.
  destruct (inline_substitutions line) as [line'|e] eqn:E; cbn [bind].
  - destruct (classify_at_most_one line' ul ol p)
      as (fragment & ul' & ol' & p' & -> & H).
    exact H.
  - destruct (encodable line) eqn:Henc; [|reflexivity].
    destruct (inline_substitutions_total line Henc) as [line' [E' _]].
    congruence.
Qed.

Lemma encodable_strip (line : str) :
  encodable line = true -> encodable (strip line) = true.
Proof.
  rewrite !encodable_Forall. apply strip_Forall.
Qed.

Lemma scan_at_most_one (lines : list str) :
  forall (html_content : list str) (ul ol p : bool),
    at_most_one ul ol p = true ->
    match scan lines html_content ul ol p with
    | Ok (_, ul', ol', p') => at_most_one ul' ol' p' = true
    | Raise _ => forallb encodable lines = false
    end.
Proof.
  induction lines as [|line rest IH]; intros html_content ul ol p H.
  - exact H.
  - cbn [scan forallb].
    pose proof (transformer_at_most_one (strip line) ul ol p) as Ht.
    destruct (markdown_to_html_line (strip line) ul ol p)
      as [[[[fragment ul'] ol'] p']|e]; cbn [bind].
    + specialize (IH (if truthy fragment then html_content ++ [fragment]
                      else html_content) ul' ol' p' Ht).
      destruct (scan rest _ ul' ol' p') as [[[[out a] b] c]|e];
        [exact IH|].
      rewrite IH. apply andb_false_r.
    + apply andb_false_iff. left.
      destruct (encodable line) eqn:Henc; [|reflexivity].
      rewrite (encodable_strip line Henc) in Ht. discriminate.
Qed.

(** The heading rule. *)
Lemma heading_loop_level (level : nat) (rest : str) :
  (1 <= level <= 6)%nat ->
  heading_loop range_6_0 (hashes level ++ SPACE :: rest)
  = Some (Ok (heading level (strip rest), false, false, false)).
Proof.
  intros H.
  destruct level as [|[|[|[|[|[|[|level]]]]]]]; try lia; reflexivity.
Qed.

Lemma classify_heading (level : nat) (rest : str) (ul ol p : bool) :
  (1 <= level <= 6)%nat ->
  classify (hashes level ++ SPACE :: rest) ul ol p
  = Ok (heading level (strip rest), false, false, false).
Proof.
  intros H. unfold classify. rewrite (heading_loop_level level rest H).
  reflexivity.
Qed.

(** The paragraph rule. *)
Lemma classify_paragraph_text (line : str) (ul ol p : bool) :
  paragraph_text line = true ->
  classify line ul ol p
  = Ok ((if p then lit "    <br />" else lit "<p>")
        ++ [LF] ++ lit "    " ++ line, false, false, true).
Proof.
  unfold paragraph_text, classify.
  destruct (heading_loop range_6_0 line); [discriminate|].
  intros H. apply andb_true_iff in H. destruct H as [H Hnil].
  apply andb_true_iff in H. destruct H as [Hul Hol].
  apply negb_true_iff in Hul, Hol, Hnil. rewrite Hul, Hol, Hnil.
  destruct p; reflexivity.
Qed.

(** The list rules. *)
Lemma classify_unordered (rest : str) (ul ol p : bool) :
  classify (lit "- " ++ rest) ul ol p
  = Ok ((if ul then [] else lit "<ul>" ++ [LF])
        ++ lit "<li>" ++ strip rest ++ lit "</li>", true, false, false).
Proof. destruct ul; reflexivity. Qed.

Lemma classify_ordered (rest : str) (ul ol p : bool) :
  classify (lit "* " ++ rest) ul ol p
  = Ok ((if ol then [] else lit "<ol>" ++ [LF])
        ++ lit "<li>" ++ strip rest ++ lit "</li>", false, true, false).
Proof. destruct ol; reflexivity. Qed.

(** The blank rule. *)
Lemma classify_empty (ul ol p : bool) :
  classify [] ul ol p
  = Ok (if ul then lit "</ul>"
        else if ol then lit "</ol>"
        else if p then lit "</p>"
        else [], false, false, false).
Proof. destruct ul, ol, p; reflexivity. Qed.

(** ** The driver *)

(** With at most one flag set, the three [if] statements after the loop
    append the single closing tag of the open block. *)
Lemma close_open_blocks_closing_tag (html_content : list str) (ul ol p : bool) :
  at_most_one ul ol p = true ->
  close_open_blocks html_content ul ol p
  = html_content ++ closing_tag ul ol p.
Proof.
  destruct ul, ol, p; try discriminate; intros _;
    unfold close_open_blocks, closing_tag; try reflexivity.
  rewrite app_nil_r. reflexivity.
Qed.

(** ** Spans of the four substitutions *)

Lemma not_in_app (c : char) (a b : str) :
  ~ In c a -> ~ In c b -> ~ In c (a ++ b).
Proof. intros Ha Hb H. apply in_app_or in H. tauto. Qed.

Lemma not_in_literal (c : char) (s : str) :
  existsb (N.eqb c) s = false -> ~ In c s.
Proof.
  intros H Hin. assert (E : existsb (N.eqb c) s = true).
  { apply existsb_exists. exists c. split; [exact Hin|apply N.eqb_refl]. }
  congruence.
Qed.

Lemma plain_absent (c : char) (s : str) :
  special c = true -> plain s = true -> ~ In c s.
Proof.
  intros Hc Hs Hin. unfold plain in Hs.
  rewrite forallb_forall in Hs. specialize (Hs c Hin).
  rewrite Hc in Hs. discriminate.
Qed.

Lemma hexdigest_absent (c : char) (bs : list N) :
  is_hex c = false -> ~ In c (MD5.hexdigest bs).
Proof.
  intros Hc Hin. pose proof (hexdigest_is_hex bs) as H.
  rewrite Forall_forall in H. specialize (H c Hin). congruence.
Qed.

(** Absence of a character from a concatenation of literals, plain
    strings and digests. *)
Ltac absent :=
  repeat (apply not_in_app);
  first [ assumption
        | apply not_in_literal; reflexivity
        | apply plain_absent; [reflexivity | assumption]
        | apply hexdigest_absent; reflexivity ].

Lemma absent_occurs_snoc (c1 c2 : char) (g : str) :
  ~ In c1 g -> Re.occurs [c1; c2] (g ++ [c1]) = false.
Proof.
  induction g as [|a g IH]; intros H.
  - simpl. rewrite N.eqb_refl. reflexivity.
  - change (Re.occurs [c1; c2] ((a :: g) ++ [c1]))
      with (startswith (a :: g ++ [c1]) [c1; c2]
            || Re.occurs [c1; c2] (g ++ [c1])).
    rewrite startswith_head.
    + apply IH. intros Hin. apply H. right. exact Hin.
    + intros ->. apply H. left. reflexivity.
Qed.

Section Spans.

Variables o c : char.
Variable repl : str -> result str.

Local Abbreviation sub := (Re.sub [o; o] [c; c] repl).

(** A span whose body holds neither a line feed nor the closing character,
    after a prefix without the opening character. *)
Lemma sub_simple_span (pre g rest : str) :
  ~ In o pre -> ~ In LF g -> ~ In c g ->
  sub (pre ++ [o; o] ++ g ++ [c; c] ++ rest)
  = (x <- repl g ;; y <- sub rest ;; Ok (pre ++ x ++ y)).
Proof.
  intros Hpre Hlf Hg. apply sub_span.
  - apply absent_occurs_snoc, Hpre.
  - exact Hlf.
  - apply absent_occurs_snoc, Hg.
Qed.

End Spans.

Lemma sub_bold_absent (s : str) : ~ In 42 s -> sub_bold s = Ok s.
Proof. apply sub_absent. Qed.

Lemma sub_emphasis_absent (s : str) : ~ In 95 s -> sub_emphasis s = Ok s.
Proof. apply sub_absent. Qed.

Lemma sub_md5_absent (s : str) : ~ In 91 s -> sub_md5 s = Ok s.
Proof. apply sub_absent. Qed.

Lemma sub_remove_c_absent (s : str) : ~ In 40 s -> sub_remove_c s = Ok s.
Proof. apply sub_absent. Qed.

Lemma sub_bold_span (pre g rest : str) :
  ~ In 42 pre -> ~ In LF g -> ~ In 42 g ->
  sub_bold (pre ++ lit "**" ++ g ++ lit "**" ++ rest)
  = (y <- sub_bold rest ;; Ok (pre ++ (lit "<b>" ++ g ++ lit "</b>") ++ y)).
Proof.
  intros. unfold sub_bold. change (lit "**") with [42; 42]. rewrite sub_simple_span by assumption. reflexivity.
Qed.

Lemma sub_emphasis_span (pre g rest : str) :
  ~ In 95 pre -> ~ In LF g -> ~ In 95 g ->
  sub_emphasis (pre ++ lit "__" ++ g ++ lit "__" ++ rest)
  = (y <- sub_emphasis rest ;;
     Ok (pre ++ (lit "<em>" ++ g ++ lit "</em>") ++ y)).
Proof.
  intros. unfold sub_emphasis. change (lit "__") with [95; 95]. rewrite sub_simple_span by assumption. reflexivity.
Qed.

Lemma sub_md5_span (pre g rest : str) :
  ~ In 91 pre -> ~ In LF g -> ~ In 93 g ->
  sub_md5 (pre ++ lit "[[" ++ g ++ lit "]]" ++ rest)
  = (x <- md5_hash g ;; y <- sub_md5 rest ;; Ok (pre ++ x ++ y)).
Proof.
  intros. unfold sub_md5. change (lit "[[") with [91; 91]. change (lit "]]") with [93; 93].
  rewrite sub_simple_span by assumption. reflexivity.
Qed.

Lemma sub_remove_c_span (pre g rest : str) :
  ~ In 40 pre -> ~ In LF g -> ~ In 41 g ->
  sub_remove_c (pre ++ lit "((" ++ g ++ lit "))" ++ rest)
  = (y <- sub_remove_c rest ;; Ok (pre ++ remove_c g ++ y)).
Proof.
  intros. unfold sub_remove_c. change (lit "((") with [40; 40]. change (lit "))") with [41; 41].
  rewrite sub_simple_span by assumption. reflexivity.
Qed.

(** ** The hash substitution *)

Lemma md5_hash_abc :
  md5_hash (lit "abc") = Ok (lit "900150983cd24fb0d6963f7d28e17f72").
Proof. vm_compute. reflexivity. Qed.

(** A line with one [[[abc]]] span in plain text. *)
Lemma inline_abc (pre post : str) :
  plain pre = true -> plain post = true ->
  inline_substitutions (pre ++ lit "[[abc]]" ++ post)
  = Ok (pre ++ lit "900150983cd24fb0d6963f7d28e17f72" ++ post).
Proof.
  intros Hpre Hpost. unfold inline_substitutions.
  rewrite sub_bold_absent by absent. cbn [bind].
  rewrite sub_emphasis_absent by absent. cbn [bind].
  change (lit "[[abc]]" ++ post)
    with (lit "[[" ++ lit "abc" ++ lit "]]" ++ post).
  rewrite sub_md5_span by absent.
  rewrite md5_hash_abc, sub_md5_absent by absent. cbn [bind].
  rewrite sub_remove_c_absent by absent. reflexivity.
Qed.

(** ** The order of the substitutions *)

Lemma md5_hash_inv (g h : str) :
  md5_hash g = Ok h -> exists bytes, h = MD5.hexdigest bytes.
Proof.
  unfold md5_hash. destruct (Utf8.encode g) as [bytes|e]; [|discriminate].
  intros [= <-]. exists bytes. reflexivity.
Qed.

(** A line that is one span. *)
Lemma sub_md5_whole (g : str) :
  ~ In LF g -> ~ In 93 g ->
  sub_md5 (lit "[[" ++ g ++ lit "]]") = md5_hash g.
Proof.
  intros Hlf Hg.
  change (lit "[[" ++ g ++ lit "]]") with ([] ++ lit "[[" ++ g ++ lit "]]" ++ []).
  rewrite sub_md5_span; [|intros []|exact Hlf|exact Hg].
  destruct (md5_hash g); [|reflexivity].
  cbn. rewrite app_nil_r. reflexivity.
Qed.

Lemma sub_remove_c_whole (g : str) :
  ~ In LF g -> ~ In 41 g ->
  sub_remove_c (lit "((" ++ g ++ lit "))") = Ok (remove_c g).
Proof.
  intros Hlf Hg.
  change (lit "((" ++ g ++ lit "))") with ([] ++ lit "((" ++ g ++ lit "))" ++ []).
  rewrite sub_remove_c_span; [|intros []|exact Hlf|exact Hg].
  cbn. rewrite app_nil_r. reflexivity.
Qed.

(** A digest goes through the strip substitution unchanged. *)
Lemma md5_hash_then_remove_c (g : str) :
  (h <- md5_hash g ;; line <- sub_remove_c h ;; Ok line) = md5_hash g.
Proof.
  destruct (md5_hash g) as [h|e] eqn:E; [|reflexivity]. cbn [bind].
  destruct (md5_hash_inv g h E) as [bytes ->].
  rewrite sub_remove_c_absent by absent. reflexivity.
Qed.

Lemma bold_inside_hash (a : str) :
  plain a = true -> ~ In LF a ->
  inline_substitutions (lit "[[" ++ lit "**" ++ a ++ lit "**" ++ lit "]]")
  = md5_hash (lit "<b>" ++ a ++ lit "</b>").
Proof.
  intros Ha Hlf. unfold inline_substitutions.
  rewrite sub_bold_span by absent.
  rewrite sub_bold_absent by absent. cbn [bind].
  rewrite sub_emphasis_absent by absent. cbn [bind].
  rewrite sub_md5_whole by absent.
  apply md5_hash_then_remove_c.
Qed.

Lemma emphasis_inside_hash (a : str) :
  plain a = true -> ~ In LF a ->
  inline_substitutions (lit "[[" ++ lit "__" ++ a ++ lit "__" ++ lit "]]")
  = md5_hash (lit "<em>" ++ a ++ lit "</em>").
Proof.
  intros Ha Hlf. unfold inline_substitutions.
  rewrite sub_bold_absent by absent. cbn [bind].
  rewrite sub_emphasis_span by absent.
  rewrite sub_emphasis_absent by absent. cbn [bind].
  rewrite sub_md5_whole by absent.
  apply md5_hash_then_remove_c.
Qed.

Lemma bold_inside_strip (a : str) :
  plain a = true -> ~ In LF a ->
  inline_substitutions (lit "((" ++ lit "**" ++ a ++ lit "**" ++ lit "))")
  = Ok (remove_c (lit "<b>" ++ a ++ lit "</b>")).
Proof.
  intros Ha Hlf. unfold inline_substitutions.
  rewrite sub_bold_span by absent.
  rewrite sub_bold_absent by absent. cbn [bind].
  rewrite sub_emphasis_absent by absent. cbn [bind].
  rewrite sub_md5_absent by absent. cbn [bind].
  rewrite sub_remove_c_whole by absent. reflexivity.
Qed.

Lemma emphasis_inside_strip (a : str) :
  plain a = true -> ~ In LF a ->
  inline_substitutions (lit "((" ++ lit "__" ++ a ++ lit "__" ++ lit "))")
  = Ok (remove_c (lit "<em>" ++ a ++ lit "</em>")).
Proof.
  intros Ha Hlf. unfold inline_substitutions.
  rewrite sub_bold_absent by absent. cbn [bind].
  rewrite sub_emphasis_span by absent.
  rewrite sub_emphasis_absent by absent. cbn [bind].
  rewrite sub_md5_absent by absent. cbn [bind].
  rewrite sub_remove_c_whole by absent. reflexivity.
Qed.

Lemma hash_inside_strip (a : str) :
  plain a = true -> ~ In LF a ->
  inline_substitutions (lit "((" ++ lit "[[" ++ a ++ lit "]]" ++ lit "))")
  = (h <- md5_hash a ;; Ok (remove_c h)).
Proof.
  intros Ha Hlf. unfold inline_substitutions.
  rewrite sub_bold_absent by absent. cbn [bind].
  rewrite sub_emphasis_absent by absent. cbn [bind].
  rewrite sub_md5_span by absent.
  rewrite sub_md5_absent by absent.
  destruct (md5_hash a) as [h|e] eqn:E; [|reflexivity]. cbn [bind].
  destruct (md5_hash_inv a h E) as [bytes ->].
  rewrite sub_remove_c_whole by absent. reflexivity.
Qed.

(** ** Documents of plain text *)

Lemma plain_strip (line : str) : plain line = true -> plain (strip line) = true.
Proof.
  unfold plain. rewrite !forallb_forall. intros H c Hc.
  apply H, strip_In, Hc.
Qed.

(** The substitutions leave plain text as it is. *)
Lemma inline_plain (line : str) :
  plain line = true -> inline_substitutions line = Ok line.
Proof.
  intros H. unfold inline_substitutions.
  rewrite sub_bold_absent by absent. cbn [bind].
  rewrite sub_emphasis_absent by absent. cbn [bind].
  rewrite sub_md5_absent by absent. cbn [bind].
  rewrite sub_remove_c_absent by absent. reflexivity.
Qed.

(** Plain text that is not empty is paragraph text. *)
Lemma plain_paragraph_text (line : str) :
  plain line = true -> line <> [] -> paragraph_text line = true.
Proof.
  destruct line as [|c line]; [congruence|]. intros H _.
  assert (Hhash : (c =? HASH) = false).
  { apply N.eqb_neq. intros ->. discriminate H. }
  assert (Hdash : (c =? 45) = false).
  { apply N.eqb_neq. intros ->. discriminate H. }
  assert (Hstar : (c =? 42) = false).
  { apply N.eqb_neq. intros ->. discriminate H. }
  unfold paragraph_text, range_6_0.
  cbn [heading_loop hashes repeat app startswith].
  rewrite Hhash. cbn [andb].
  change (lit "- ") with [45; 32]. change (lit "* ") with [42; 32].
  cbn [startswith]. rewrite Hdash, Hstar. reflexivity.
Qed.

(** The transformer on a line of plain text. *)
Lemma transformer_plain (line : str) (ul ol p : bool) :
  plain line = true ->
  markdown_to_html_line (strip line) ul ol p
  = if blank line then
      Ok (if ul then lit "</ul>"
          else if ol then lit "</ol>"
          else if p then lit "</p>"
          else [], false, false, false)
    else
      Ok ((if p then lit "    <br />" else lit "<p>")
          ++ [LF] ++ lit "    " ++ strip line, false, false, true).
Proof.
  intros H. apply plain_strip in H. unfold markdown_to_html_line, blank.
  rewrite (inline_plain _ H). cbn [bind].
  destruct (str_eqb (strip line) []) eqn:E.
  - apply str_eqb_nil in E. rewrite E. apply classify_empty.
  - apply classify_paragraph_text, plain_paragraph_text; [exact H|].
    intros Hnil. rewrite Hnil in E. discriminate.
Qed.

Lemma open_paragraph_snoc (cur : list str) (line : str) :
  open_paragraph (cur ++ [line])
  = open_paragraph cur
    ++ [(match cur with [] => lit "<p>" | _ :: _ => lit "    <br />" end)
        ++ [LF] ++ lit "    " ++ strip line].
Proof.
  destruct cur as [|first more]; [reflexivity|].
  simpl. rewrite map_app. reflexivity.
Qed.

Lemma paragraph_block_flush (cur : list str) :
  flat_map paragraph_block (flush cur) = paragraph_block cur.
Proof.
  destruct cur; [reflexivity|]. cbn [flush flat_map]. apply app_nil_r.
Qed.

(** The scan of plain lines, started inside the paragraph of the run
    [cur]. *)
Lemma scan_plain (lines : list str) :
  forallb plain lines = true ->
  forall (html_content cur : list str),
    (r <- scan lines (html_content ++ open_paragraph cur)
            false false (match cur with [] => false | _ :: _ => true end) ;;
     let '(html_content, ul, ol, p) := r in
     Ok (close_open_blocks html_content ul ol p))
    = Ok (html_content ++ flat_map paragraph_block (runs_from cur lines)).
Proof.
  induction lines as [|line rest IH]; intros H html_content cur.
  - cbn [scan bind runs_from]. rewrite paragraph_block_flush.
    destruct cur; unfold close_open_blocks, paragraph_block.
    + reflexivity.
    + rewrite app_assoc. reflexivity.
  - cbn [forallb] in H. apply andb_true_iff in H. destruct H as [Hline Hrest].
    cbn [scan runs_from]. rewrite (transformer_plain _ _ _ _ Hline).
    destruct (blank line).
    + cbn [bind]. rewrite flat_map_app, paragraph_block_flush.
      destruct cur as [|first more].
      * cbn [truthy]. apply (IH Hrest html_content []).
      * change (truthy (lit "</p>")) with true. cbv iota.
        rewrite (app_assoc html_content).
        rewrite <- (IH Hrest (html_content ++ paragraph_block (first :: more)) []).
        change (open_paragraph []) with (@nil str).
        unfold paragraph_block. rewrite app_nil_r, app_assoc. reflexivity.
    + cbn [bind].
      rewrite <- (IH Hrest html_content (cur ++ [line])).
      rewrite open_paragraph_snoc, (app_assoc html_content (open_paragraph cur)).
      destruct cur; reflexivity.
Qed.

(** [runs] yields the maximal runs: blank lines separate, a run followed by
    a blank line or by the end of the document is one run. *)
Lemma runs_from_run (cur run rest : list str) :
  forallb (fun l => negb (blank l)) run = true ->
  runs_from cur (run ++ rest) = runs_from (cur ++ run) rest.
Proof.
  revert cur; induction run as [|line run IH]; intros cur H.
  - rewrite app_nil_r. reflexivity.
  - cbn [forallb] in H. apply andb_true_iff in H. destruct H as [Hl Hrun].
    apply negb_true_iff in Hl. cbn [app runs_from]. rewrite Hl.
    rewrite (IH _ Hrun), <- app_assoc. reflexivity.
Qed.

Lemma runs_blank (line : str) (rest : list str) :
  blank line = true -> runs (line :: rest) = runs rest.
Proof. intros H. unfold runs. cbn [runs_from]. rewrite H. reflexivity. Qed.

Lemma runs_run_blank (run : list str) (line : str) (rest : list str) :
  run <> [] ->
  forallb (fun l => negb (blank l)) run = true ->
  blank line = true ->
  runs (run ++ line :: rest) = run :: runs rest.
Proof.
  intros Hne Hrun Hline. unfold runs. rewrite (runs_from_run _ _ _ Hrun).
  cbn [runs_from app]. rewrite Hline. destruct run; [congruence|reflexivity].
Qed.

Lemma runs_run_end (run : list str) :
  run <> [] ->
  forallb (fun l => negb (blank l)) run = true ->
  runs run = [run].
Proof.
  intros Hne Hrun. unfold runs.
  rewrite <- (app_nil_r run) at 1. rewrite (runs_from_run _ _ _ Hrun).
  cbn [runs_from app]. destruct run; [congruence|reflexivity].
Qed.

(** ** Block markers and the substitutions *)

(** A prefix into which no opening delimiter reaches goes through the four
    substitutions unchanged. *)
Lemma sub_bold_prefix (pre rest : str) :
  Re.occurs (lit "**") (pre ++ [42]) = false ->
  sub_bold (pre ++ rest) = (y <- sub_bold rest ;; Ok (pre ++ y)).
Proof. apply sub_prefix. Qed.

Lemma sub_emphasis_prefix (pre rest : str) :
  Re.occurs (lit "__") (pre ++ [95]) = false ->
  sub_emphasis (pre ++ rest) = (y <- sub_emphasis rest ;; Ok (pre ++ y)).
Proof. apply sub_prefix. Qed.

Lemma sub_md5_prefix (pre rest : str) :
  Re.occurs (lit "[[") (pre ++ [91]) = false ->
  sub_md5 (pre ++ rest) = (y <- sub_md5 rest ;; Ok (pre ++ y)).
Proof. apply sub_prefix. Qed.

Lemma sub_remove_c_prefix (pre rest : str) :
  Re.occurs (lit "((") (pre ++ [40]) = false ->
  sub_remove_c (pre ++ rest) = (y <- sub_remove_c rest ;; Ok (pre ++ y)).
Proof. apply sub_prefix. Qed.

Lemma inline_prefix (pre rest : str) :
  Re.occurs (lit "**") (pre ++ [42]) = false ->
  Re.occurs (lit "__") (pre ++ [95]) = false ->
  Re.occurs (lit "[[") (pre ++ [91]) = false ->
  Re.occurs (lit "((") (pre ++ [40]) = false ->
  inline_substitutions (pre ++ rest)
  = (rest' <- inline_substitutions rest ;; Ok (pre ++ rest')).
Proof.
  intros Hb He Hh Hs. unfold inline_substitutions.
  rewrite (sub_bold_prefix pre rest Hb).
  destruct (sub_bold rest) as [l1|e]; [|reflexivity]. cbn [bind].
  rewrite (sub_emphasis_prefix pre l1 He).
  destruct (sub_emphasis l1) as [l2|e]; [|reflexivity]. cbn [bind].
  rewrite (sub_md5_prefix pre l2 Hh).
  destruct (sub_md5 l2) as [l3|e]; [|reflexivity]. cbn [bind].
  rewrite (sub_remove_c_prefix pre l3 Hs).
  destruct (sub_remove_c l3) as [l4|e]; reflexivity.
Qed.

(** The heading and list markers are such prefixes. *)
Lemma inline_heading_marker (level : nat) (rest : str) :
  (1 <= level <= 7)%nat ->
  inline_substitutions (hashes level ++ SPACE :: rest)
  = (rest' <- inline_substitutions rest ;;
     Ok (hashes level ++ SPACE :: rest')).
Proof.
  intros H.
  destruct level as [|[|[|[|[|[|[|[|level]]]]]]]]; try lia;
    match goal with
    | |- inline_substitutions (hashes ?k ++ _) = _ =>
      exact (inline_prefix (hashes k ++ [SPACE]) rest
               eq_refl eq_refl eq_refl eq_refl)
    end.
Qed.

Lemma inline_unordered_marker (rest : str) :
  inline_substitutions (lit "- " ++ rest)
  = (rest' <- inline_substitutions rest ;; Ok (lit "- " ++ rest')).
Proof. exact (inline_prefix (lit "- ") rest eq_refl eq_refl eq_refl eq_refl). Qed.

Lemma inline_ordered_marker (rest : str) :
  inline_substitutions (lit "* " ++ rest)
  = (rest' <- inline_substitutions rest ;; Ok (lit "* " ++ rest')).
Proof. exact (inline_prefix (lit "* ") rest eq_refl eq_refl eq_refl eq_refl). Qed.

(** * The properties of the specification *)

(** C1. Every call of the line transformer that returns leaves at most one
    of the three flags set, whatever the line and the flags it was given,
    and it returns on every line [str.encode()] accepts; hence the state
    after any number of lines scanned from the all-false state has at most
    one flag set. *)
Theorem at_most_one_flag_invariant :
  (forall (line : str) (ul ol p : bool),
     match markdown_to_html_line line ul ol p with
     | Ok (_, ul', ol', p') => at_most_one ul' ol' p' = true
     | Raise _ => encodable line = false
     end)
  /\ (forall lines : list str,
        match scan lines [] false false false with
        | Ok (_, ul, ol, p) => at_most_one ul ol p = true
        | Raise _ => forallb encodable lines = false
        end).
Proof.
  split.
  - exact transformer_at_most_one.
  - intros lines. apply scan_at_most_one. reflexivity.
Qed.

(** C2, as the code has it.  The four substitutions run in the order bold,
    emphasis, hash, strip, each on the line as the ones before it left it.
    Bold and emphasis markers inside a hash or strip span are therefore
    expanded first: the hash digests, and the strip filters, the enclosed
    text with its markers already turned into tags; and a digest inside a
    strip span is filtered too. *)
Theorem substitutions_in_source_order :
  (forall line : str,
     inline_substitutions line
     = (l1 <- sub_bold line ;;
        l2 <- sub_emphasis l1 ;;
        l3 <- sub_md5 l2 ;;
        sub_remove_c l3))
  /\ (forall a : str,
        plain a = true -> ~ In LF a ->
        inline_substitutions
          (lit "[[" ++ lit "**" ++ a ++ lit "**" ++ lit "]]")
        = md5_hash (lit "<b>" ++ a ++ lit "</b>")
        /\ inline_substitutions
             (lit "[[" ++ lit "__" ++ a ++ lit "__" ++ lit "]]")
           = md5_hash (lit "<em>" ++ a ++ lit "</em>")
        /\ inline_substitutions
             (lit "((" ++ lit "**" ++ a ++ lit "**" ++ lit "))")
           = Ok (remove_c (lit "<b>" ++ a ++ lit "</b>"))
        /\ inline_substitutions
             (lit "((" ++ lit "__" ++ a ++ lit "__" ++ lit "))")
           = Ok (remove_c (lit "<em>" ++ a ++ lit "</em>"))
        /\ inline_substitutions
             (lit "((" ++ lit "[[" ++ a ++ lit "]]" ++ lit "))")
           = (h <- md5_hash a ;; Ok (remove_c h))).
Proof.
  split.
  - intros line. unfold inline_substitutions.
    destruct (sub_bold line) as [l1|e]; [|reflexivity]. cbn [bind].
    destruct (sub_emphasis l1) as [l2|e]; [|reflexivity]. cbn [bind].
    destruct (sub_md5 l2) as [l3|e]; [|reflexivity]. cbn [bind].
    apply bind_ret.
  - intros a Ha Hlf. repeat split.
    + apply bold_inside_hash; assumption.
    + apply emphasis_inside_hash; assumption.
    + apply bold_inside_strip; assumption.
    + apply emphasis_inside_strip; assumption.
    + apply hash_inside_strip; assumption.
Qed.

Lemma substitutions_in_source_order_witness :
  inline_substitutions (lit "[[**a**]]")
  = Ok (lit "d0d0b371e07faa35478d8dde673a8cc5")
  /\ inline_substitutions (lit "((**Cocoa**))") = Ok (lit "<b>ooa</b>")
  /\ inline_substitutions (lit "(([[abc]]))")
     = Ok (lit "900150983d24fb0d6963f7d28e17f72").
Proof.
  split; [|split].
  - refine (eq_trans
              (proj1 (proj2 substitutions_in_source_order (lit "a")
                        eq_refl (not_in_literal LF (lit "a") eq_refl))) _).
    vm_compute. reflexivity.
  - refine (eq_trans
              (proj1 (proj2 (proj2 (proj2 substitutions_in_source_order
                        (lit "Cocoa") eq_refl
                        (not_in_literal LF (lit "Cocoa") eq_refl))))) _).
    vm_compute. reflexivity.
  - refine (eq_trans
              (proj2 (proj2 (proj2 (proj2 (proj2 substitutions_in_source_order
                        (lit "abc") eq_refl
                        (not_in_literal LF (lit "abc") eq_refl)))))) _).
    vm_compute. reflexivity.
Defined.

(** C2, as the specification words it, fails: the text digested for
    [[[**a**]]] is [<b>a</b>], not the enclosed [**a**], and the text
    filtered for [((**c**))] is [<b>c</b>], not [**c**]. *)
Lemma markers_in_spans_are_expanded :
  inline_substitutions (lit "[[**a**]]") = md5_hash (lit "<b>a</b>")
  /\ inline_substitutions (lit "[[**a**]]") <> md5_hash (lit "**a**")
  /\ inline_substitutions (lit "((**c**))") = Ok (lit "<b></b>")
  /\ inline_substitutions (lit "((**c**))") <> Ok (remove_c (lit "**c**")).
Proof.
  repeat split; try (vm_compute; reflexivity);
    vm_compute; intros H; discriminate H.
Qed.

(** C3. A rewritten line that starts with [level] [#] characters and a
    space, for a level from 1 to 6, is returned as the element
    [<hL>text</hL>] of that level around the stripped remainder, with the
    three flags cleared; with seven [#] characters and a space the line is
    no heading and is returned by the paragraph rule.  The substitutions
    keep the marker, so the same holds of a line that starts with the
    marker before them. *)
Theorem heading_rule :
  (forall (line line' rest : str) (level : nat) (ul ol p : bool),
     inline_substitutions line = Ok line' ->
     ((1 <= level <= 6)%nat ->
      line' = hashes level ++ SPACE :: rest ->
      markdown_to_html_line line ul ol p
      = Ok (heading level (strip rest), false, false, false))
     /\ (line' = hashes 7 ++ SPACE :: rest ->
         markdown_to_html_line line ul ol p
         = Ok ((if p then lit "    <br />" else lit "<p>")
               ++ [LF] ++ lit "    " ++ line', false, false, true)))
  /\ (forall (rest rest' : str) (level : nat) (ul ol p : bool),
        inline_substitutions rest = Ok rest' ->
        ((1 <= level <= 6)%nat ->
         markdown_to_html_line (hashes level ++ SPACE :: rest) ul ol p
         = Ok (heading level (strip rest'), false, false, false))
        /\ markdown_to_html_line (hashes 7 ++ SPACE :: rest) ul ol p
           = Ok ((if p then lit "    <br />" else lit "<p>")
                 ++ [LF] ++ lit "    " ++ hashes 7 ++ SPACE :: rest',
                 false, false, true)).
Proof.
  split.
  - intros line line' rest level ul ol p E.
    unfold markdown_to_html_line. rewrite E. cbn [bind]. split.
    + intros H ->. apply classify_heading, H.
    + intros ->. apply classify_paragraph_text. reflexivity.
  - intros rest rest' level ul ol p E.
    unfold markdown_to_html_line. split.
    + intros H. rewrite inline_heading_marker by lia. rewrite E. cbn [bind].
      apply classify_heading, H.
    + rewrite (inline_heading_marker 7) by lia. rewrite E. cbn [bind].
      apply classify_paragraph_text. reflexivity.
Qed.

Lemma heading_rule_witness :
  markdown_to_html_line (lit "###### Deep") true false false
  = Ok (lit "<h6>Deep</h6>", false, false, false)
  /\ markdown_to_html_line (lit "####### Deep") false false false
     = Ok (lit "<p>" ++ [LF] ++ lit "    ####### Deep", false, false, true)
  /\ markdown_to_html_line (lit "## **Deep** ") false false true
     = Ok (lit "<h2><b>Deep</b></h2>", false, false, false).
Proof.
  split; [|split].
  - apply (proj1 (proj1 heading_rule (lit "###### Deep") (lit "###### Deep")
                    (lit "Deep") 6%nat true false false eq_refl)).
    + split; [repeat constructor | constructor].
    + reflexivity.
  - apply (proj2 (proj1 heading_rule (lit "####### Deep") (lit "####### Deep")
                    (lit "Deep") 6%nat false false false eq_refl)).
    reflexivity.
  - apply (proj1 (proj2 heading_rule (lit "**Deep** ") (lit "<b>Deep</b> ")
                    2%nat false false true eq_refl)).
    split; repeat constructor.
Defined.

(** C4. On a line that is blank once stripped the transformer returns the
    closing tag of the open block, looking at the unordered list first,
    then the ordered list, then the paragraph, or the empty fragment when
    no block is open; the three flags are cleared in every case. *)
Theorem blank_line_rule :
  forall (raw : str) (ul ol p : bool),
    forallb isspace raw = true ->
    markdown_to_html_line (strip raw) ul ol p
    = Ok (if ul then lit "</ul>"
          else if ol then lit "</ol>"
          else if p then lit "</p>"
          else [], false, false, false).
Proof.
  intros raw ul ol p H. rewrite (strip_spaces raw H).
  apply classify_empty.
Qed.

Lemma blank_line_rule_witness :
  forallb isspace (lit "  " ++ [LF]) = true
  /\ markdown_to_html_line (strip (lit "  " ++ [LF])) false true false
     = Ok (lit "</ol>", false, false, false).
Proof.
  split; [reflexivity|].
  apply (blank_line_rule (lit "  " ++ [LF]) false true false). reflexivity.
Defined.

(** C5. After the last line the driver appends exactly the closing tag of
    the block the scan left open, [</ul>], [</ol>] or [</p>], and appends
    nothing when the scan ended with the three flags cleared. *)
Theorem end_of_document_closure :
  forall lines : list str,
    match scan lines [] false false false with
    | Ok (html_content, ul, ol, p) =>
      convert lines = Ok (html_content ++ closing_tag ul ol p)
      /\ length (closing_tag ul ol p) = (if ul || ol || p then 1 else 0)%nat
    | Raise e => convert lines = Raise e
    end.
Proof.
  intros lines. unfold convert.
  pose proof (scan_at_most_one lines [] false false false eq_refl) as H.
  destruct (scan lines [] false false false)
    as [[[[html_content ul] ol] p]|e]; cbn [bind]; [|reflexivity].
  rewrite (close_open_blocks_closing_tag _ _ _ _ H).
  split; [reflexivity|]. destruct ul, ol, p; reflexivity.
Qed.

(** C6. The hash substitution replaces a [[[...]]] span by the MD5 digest,
    in 32 lowercase hexadecimal digits, of the UTF-8 encoding of the text
    between the delimiters; the text before the span is kept and the scan
    goes on behind it, so every span is replaced.  With [[[abc]]] in plain
    text the span becomes [900150983cd24fb0d6963f7d28e17f72] and the text
    around it is untouched. *)
Theorem md5_span_replaced :
  (forall pre body post : str,
     Re.occurs (lit "[[") (pre ++ [91]) = false ->
     ~ In LF body ->
     Re.occurs (lit "]]") (body ++ [93]) = false ->
     sub_md5 (pre ++ lit "[[" ++ body ++ lit "]]" ++ post)
     = (bytes <- Utf8.encode body ;;
        rest <- sub_md5 post ;;
        Ok (pre ++ MD5.hexdigest bytes ++ rest)))
  /\ (forall s : str, ~ In 91 s -> sub_md5 s = Ok s)
  /\ (forall bytes : list N,
        length (MD5.hexdigest bytes) = 32%nat
        /\ Forall (fun c => is_hex c = true) (MD5.hexdigest bytes))
  /\ (forall (pre post : str) (ul ol p : bool),
        plain pre = true -> plain post = true ->
        inline_substitutions (pre ++ lit "[[abc]]" ++ post)
        = Ok (pre ++ lit "900150983cd24fb0d6963f7d28e17f72" ++ post)
        /\ markdown_to_html_line (pre ++ lit "[[abc]]" ++ post) ul ol p
           = classify (pre ++ lit "900150983cd24fb0d6963f7d28e17f72" ++ post)
               ul ol p).
Proof.
  split; [|split; [|split]].
  - intros pre body post Hpre Hlf Hbody. unfold sub_md5.
    change (lit "[[") with [91; 91] in *. change (lit "]]") with [93; 93] in *.
    rewrite sub_span by assumption.
    unfold md5_hash. destruct (Utf8.encode body); reflexivity.
  - exact sub_md5_absent.
  - intros bytes. split; [apply hexdigest_length|apply hexdigest_is_hex].
  - intros pre post ul ol p Hpre Hpost.
    pose proof (inline_abc pre post Hpre Hpost) as E. split; [exact E|].
    unfold markdown_to_html_line. rewrite E. reflexivity.
Qed.

Lemma md5_span_replaced_witness :
  sub_md5 (lit "x[ [[a]b]] y [[abc]]")
  = Ok (lit "x[ edcaa8a291b373081be581cd656d6576 y 900150983cd24fb0d6963f7d28e17f72")
  /\ markdown_to_html_line (lit "see [[abc]] here") false false false
     = Ok (lit "<p>" ++ [LF]
           ++ lit "    see 900150983cd24fb0d6963f7d28e17f72 here",
           false, false, true).
Proof.
  split.
  - refine (eq_trans (proj1 md5_span_replaced (lit "x[ ") (lit "a]b")
                        (lit " y [[abc]]") eq_refl
                        (not_in_literal LF (lit "a]b") eq_refl) eq_refl) _).
    vm_compute. reflexivity.
  - refine (eq_trans (proj2 (proj2 (proj2 (proj2 md5_span_replaced))
                        (lit "see ") (lit " here") false false false
                        eq_refl eq_refl)) _).
    reflexivity.
Defined.

(** C7. For a document without special characters the fragments are the
    [<p>...</p>] blocks of its maximal runs of non-blank lines, one block
    per run and in order: the first line of a run after [<p>], every
    further line after [<br />], and [</p>] from the blank line that ends
    the run or from the end of the document; the script writes these
    fragments joined by line feeds to the output file. *)
Theorem plain_text_paragraphs :
  forall lines : list str,
    forallb plain lines = true ->
    convert lines = Ok (flat_map paragraph_block (runs lines))
    /\ (forall (w : World) (argv : list str),
          (3 <= length argv)%nat ->
          isfile w (nth 1 argv []) = true ->
          readlines w (nth 1 argv []) = Ok lines ->
          write w (nth 2 argv [])
            (join [LF] (flat_map paragraph_block (runs lines))) = Ok tt ->
          main w argv
          = ([OpenRead (nth 1 argv []);
              OpenWrite (nth 2 argv [])
                (join [LF] (flat_map paragraph_block (runs lines)))], 0)).
Proof.
  intros lines H.
  assert (E : convert lines = Ok (flat_map paragraph_block (runs lines))).
  { unfold convert, runs. exact (scan_plain lines H [] []). }
  split; [exact E|].
  intros w argv Hlen Hfile Hread Hwrite. unfold main.
  replace (length argv <? 3)%nat with false
    by (symmetry; apply Nat.ltb_ge; exact Hlen).
  rewrite Hfile, Hread, E. cbn [negb]. rewrite Hwrite. reflexivity.
Qed.

Lemma plain_text_paragraphs_witness :
  convert [lit "one" ++ [LF]; lit "two" ++ [LF]; [LF]; lit "  " ++ [LF];
           lit " three"]
  = Ok [lit "<p>" ++ [LF] ++ lit "    one";
        lit "    <br />" ++ [LF] ++ lit "    two";
        lit "</p>";
        lit "<p>" ++ [LF] ++ lit "    three";
        lit "</p>"]
  /\ main (one_file_world (lit "in.md") [lit "one" ++ [LF]; lit "two"])
          [lit "./markdown2html.py"; lit "in.md"; lit "out.html"]
     = ([OpenRead (lit "in.md");
         OpenWrite (lit "out.html")
           (lit "<p>" ++ [LF] ++ lit "    one" ++ [LF]
            ++ lit "    <br />" ++ [LF] ++ lit "    two" ++ [LF]
            ++ lit "</p>")], 0).
Proof.
  split.
  - refine (eq_trans
              (proj1 (plain_text_paragraphs
                        [lit "one" ++ [LF]; lit "two" ++ [LF]; [LF];
                         lit "  " ++ [LF]; lit " three"] eq_refl)) _).
    vm_compute. reflexivity.
  - refine (eq_trans
              (proj2 (plain_text_paragraphs
                        [lit "one" ++ [LF]; lit "two"] eq_refl)
                 (one_file_world (lit "in.md") [lit "one" ++ [LF]; lit "two"])
                 [lit "./markdown2html.py"; lit "in.md"; lit "out.html"]
                 (le_n 3) eq_refl eq_refl eq_refl) _).
    vm_compute. reflexivity.
Defined.

(** C8. Leaving an open block for a heading or for paragraph text emits no
    closing tag: in a state with an open list or paragraph a heading line is
    returned as the heading element alone, with the flags cleared; in a
    state with an open list a line of paragraph text, such as any line of
    plain text that is not empty, is returned as the paragraph opening
    alone, with only the paragraph flag set. *)
Theorem no_closing_tag_on_transition :
  (forall (line line' : str) (ul ol p : bool),
     inline_substitutions line = Ok line' ->
     at_most_one ul ol p = true ->
     (ul || ol || p = true ->
      forall (level : nat) (rest : str),
        (1 <= level <= 6)%nat ->
        line' = hashes level ++ SPACE :: rest ->
        markdown_to_html_line line ul ol p
        = Ok (heading level (strip rest), false, false, false))
     /\ (ul || ol = true ->
         paragraph_text line' = true ->
         markdown_to_html_line line ul ol p
         = Ok (lit "<p>" ++ [LF] ++ lit "    " ++ line', false, false, true)))
  /\ (forall (line : str) (ul ol p : bool),
        plain line = true -> line <> [] ->
        at_most_one ul ol p = true ->
        ul || ol = true ->
        markdown_to_html_line line ul ol p
        = Ok (lit "<p>" ++ [LF] ++ lit "    " ++ line, false, false, true)).
Proof.
  split.
  - intros line line' ul ol p E Hinv.
    unfold markdown_to_html_line. rewrite E. cbn [bind]. split.
    + intros _ level rest H ->. apply classify_heading, H.
    + intros Hopen Htext. rewrite (classify_paragraph_text _ _ _ _ Htext).
      destruct ul, ol, p; try discriminate; reflexivity.
  - intros line ul ol p Hplain Hne Hinv Hopen.
    unfold markdown_to_html_line. rewrite (inline_plain _ Hplain). cbn [bind].
    rewrite (classify_paragraph_text _ _ _ _
               (plain_paragraph_text _ Hplain Hne)).
    destruct ul, ol, p; try discriminate; reflexivity.
Qed.

Lemma no_closing_tag_on_transition_witness :
  markdown_to_html_line (lit "## Title") true false false
  = Ok (lit "<h2>Title</h2>", false, false, false)
  /\ markdown_to_html_line (lit "some **bold** text") false true false
     = Ok (lit "<p>" ++ [LF] ++ lit "    some <b>bold</b> text",
           false, false, true)
  /\ markdown_to_html_line (lit "some text") true false false
     = Ok (lit "<p>" ++ [LF] ++ lit "    some text", false, false, true).
Proof.
  split; [|split].
  - apply (proj1 (proj1 no_closing_tag_on_transition
                    (lit "## Title") (lit "## Title") true false false
                    eq_refl eq_refl) eq_refl 2%nat (lit "Title")).
    + split; repeat constructor.
    + reflexivity.
  - apply (proj2 (proj1 no_closing_tag_on_transition
                    (lit "some **bold** text") (lit "some <b>bold</b> text")
                    false true false eq_refl eq_refl) eq_refl eq_refl).
  - apply (proj2 no_closing_tag_on_transition
             (lit "some text") true false false eq_refl).
    + discriminate.
    + reflexivity.
    + reflexivity.
Defined.

(** C9. When the input path is not an existing regular file, the script
    writes [Missing <path>] and a line feed to the error stream and exits
    with status 1; it opens no file. *)
Theorem missing_input_file :
  forall (w : World) (argv : list str),
    (3 <= length argv)%nat ->
    isfile w (nth 1 argv []) = false ->
    main w argv = ([Stderr (lit "Missing " ++ nth 1 argv [] ++ [LF])], 1).
Proof.
  intros w argv Hlen Hfile. unfold main.
  replace (length argv <? 3)%nat with false
    by (symmetry; apply Nat.ltb_ge; exact Hlen).
  rewrite Hfile. reflexivity.
Qed.

Lemma missing_input_file_witness :
  main empty_world [lit "./markdown2html.py"; lit "nope.md"; lit "out.html"]
  = ([Stderr (lit "Missing nope.md" ++ [LF])], 1).
Proof.
  apply (missing_input_file empty_world
           [lit "./markdown2html.py"; lit "nope.md"; lit "out.html"]).
  - apply le_n.
  - reflexivity.
Defined.

(** C10. Switching between the two kinds of list opens the new list and
    does not close the old one: with the unordered list open, a rewritten
    line that starts with [* ] is returned as [<ol>], a line feed and the
    item, and the state becomes ordered list only; with the ordered list
    open, a line that starts with [- ] is returned as [<ul>], a line feed
    and the item, and the state becomes unordered list only.  The
    substitutions keep the marker, so the same holds of a line that starts
    with the marker before them. *)
Theorem list_kind_switch :
  (forall (line line' rest : str) (ul ol p : bool),
     inline_substitutions line = Ok line' ->
     at_most_one ul ol p = true ->
     (ul = true ->
      line' = lit "* " ++ rest ->
      markdown_to_html_line line ul ol p
      = Ok (lit "<ol>" ++ [LF] ++ lit "<li>" ++ strip rest ++ lit "</li>",
            false, true, false))
     /\ (ol = true ->
         line' = lit "- " ++ rest ->
         markdown_to_html_line line ul ol p
         = Ok (lit "<ul>" ++ [LF] ++ lit "<li>" ++ strip rest ++ lit "</li>",
               true, false, false)))
  /\ (forall (rest rest' : str) (ul ol p : bool),
        inline_substitutions rest = Ok rest' ->
        at_most_one ul ol p = true ->
        (ul = true ->
         markdown_to_html_line (lit "* " ++ rest) ul ol p
         = Ok (lit "<ol>" ++ [LF] ++ lit "<li>" ++ strip rest' ++ lit "</li>",
               false, true, false))
        /\ (ol = true ->
            markdown_to_html_line (lit "- " ++ rest) ul ol p
            = Ok (lit "<ul>" ++ [LF] ++ lit "<li>" ++ strip rest'
                  ++ lit "</li>", true, false, false))).
Proof.
  split.
  - intros line line' rest ul ol p E Hinv.
    unfold markdown_to_html_line. rewrite E. cbn [bind]. split.
    + intros -> ->. rewrite classify_ordered.
      destruct ol; [destruct p; discriminate|reflexivity].
    + intros -> ->. rewrite classify_unordered.
      destruct ul; [destruct p; discriminate|reflexivity].
  - intros rest rest' ul ol p E Hinv.
    unfold markdown_to_html_line. split.
    + intros ->. rewrite inline_ordered_marker, E. cbn [bind].
      rewrite classify_ordered.
      destruct ol; [destruct p; discriminate|reflexivity].
    + intros ->. rewrite inline_unordered_marker, E. cbn [bind].
      rewrite classify_unordered.
      destruct ul; [destruct p; discriminate|reflexivity].
Qed.

Lemma list_kind_switch_witness :
  markdown_to_html_line (lit "* one") true false false
  = Ok (lit "<ol>" ++ [LF] ++ lit "<li>one</li>", false, true, false)
  /\ markdown_to_html_line (lit "- one") false true false
     = Ok (lit "<ul>" ++ [LF] ++ lit "<li>one</li>", true, false, false)
  /\ markdown_to_html_line (lit "* __one__") true false false
     = Ok (lit "<ol>" ++ [LF] ++ lit "<li><em>one</em></li>",
           false, true, false).
Proof.
  split; [|split].
  - apply (proj1 (proj1 list_kind_switch (lit "* one") (lit "* one")
                    (lit "one") true false false eq_refl eq_refl)
             eq_refl eq_refl).
  - apply (proj2 (proj1 list_kind_switch (lit "- one") (lit "- one")
                    (lit "one") false true false eq_refl eq_refl)
             eq_refl eq_refl).
  - apply (proj1 (proj2 list_kind_switch (lit "__one__") (lit "<em>one</em>")
                    true false false eq_refl eq_refl) eq_refl).
Defined.

(** ** The examples of the specification *)

Example bold_and_emphasis :
  inline_substitutions (lit "**a** __b__") = Ok (lit "<b>a</b> <em>b</em>").
Proof. vm_compute. reflexivity. Qed.

Example strip_cocoa :
  inline_substitutions (lit "((Cocoa))") = Ok (lit "ooa").
Proof. vm_compute. reflexivity. Qed.

Example heading_title :
  markdown_to_html_line (lit "# Title") false false false
  = Ok (lit "<h1>Title</h1>", false, false, false).
Proof. vm_compute. reflexivity. Qed.

Example list_grouping :
  convert [lit "- a" ++ [LF]; lit "- b" ++ [LF]]
  = Ok [lit "<ul>" ++ [LF] ++ lit "<li>a</li>"; lit "<li>b</li>";
        lit "</ul>"].
Proof. vm_compute. reflexivity. Qed.

(** A heading after list items: the list is never closed. *)
Example heading_inside_list :
  convert [lit "- a" ++ [LF]; lit "# T" ++ [LF]]
  = Ok [lit "<ul>" ++ [LF] ++ lit "<li>a</li>"; lit "<h1>T</h1>"].
Proof. vm_compute. reflexivity. Qed.

(** * Further properties of the script *)

(** ** The command line and the files *)

(** With fewer than two path arguments the script prints the usage line and
    exits with status 1, whatever the files are. *)
Theorem usage_error :
  forall (w : World) (argv : list str),
    (length argv < 3)%nat ->
    main w argv = ([Stderr usage], 1).
Proof.
  intros w argv H. unfold main.
  replace (length argv <? 3)%nat with true
    by (symmetry; apply Nat.ltb_lt; exact H).
  reflexivity.
Qed.

Lemma usage_error_witness :
  main (one_file_world (lit "in.md") []) [lit "./markdown2html.py"; lit "in.md"]
  = ([Stderr (lit "Usage: ./markdown2html.py README.md README.html" ++ [LF])],
     1).
Proof.
  apply (usage_error (one_file_world (lit "in.md") [])
           [lit "./markdown2html.py"; lit "in.md"]).
  apply le_n.
Defined.

(** The exit status is 0 or 1, and it is 0 exactly when both paths are
    given, the input is a regular file, it is read, every line is converted
    and the joined fragments are written. *)
Theorem exit_status_zero_iff :
  forall (w : World) (argv : list str),
    (snd (main w argv) = 0 \/ snd (main w argv) = 1)
    /\ (snd (main w argv) = 0 <->
        (3 <= length argv)%nat
        /\ isfile w (nth 1 argv []) = true
        /\ exists lines html,
             readlines w (nth 1 argv []) = Ok lines
             /\ convert lines = Ok html
             /\ write w (nth 2 argv []) (join [LF] html) = Ok tt).
Proof.
  intros w argv. unfold main.
  destruct (length argv <? 3)%nat eqn:Hlen.
  - apply Nat.ltb_lt in Hlen. split; [right; reflexivity|].
    split; [discriminate|]. intros [H _]. lia.
  - apply Nat.ltb_ge in Hlen.
    destruct (isfile w (nth 1 argv [])) eqn:Hfile; cbn [negb].
    2:{ split; [right; reflexivity|]. split; [discriminate|].
        intros (_ & H & _). discriminate. }
    destruct (readlines w (nth 1 argv [])) as [lines|e] eqn:Hread.
    2:{ split; [right; reflexivity|]. split; [discriminate|].
        intros (_ & _ & lines & html & H & _). discriminate. }
    destruct (convert lines) as [html|e] eqn:Hconv.
    2:{ split; [right; reflexivity|]. split; [discriminate|].
        intros (_ & _ & lines' & html & H & H' & _).
        injection H as <-. rewrite Hconv in H'. discriminate. }
    destruct (write w (nth 2 argv []) (join [LF] html)) as [[]|e] eqn:Hwrite.
    + split; [left; reflexivity|]. split; [|reflexivity].
      intros _. repeat split; try assumption.
      exists lines, html. repeat split; assumption.
    + split; [right; reflexivity|]. split; [discriminate|].
      intros (_ & _ & lines' & html' & H & H' & H'').
      injection H as <-. rewrite Hconv in H'. injection H' as <-.
      rewrite Hwrite in H''. discriminate.
Qed.

Lemma exit_status_zero_iff_witness :
  snd (main (one_file_world (lit "in.md") [lit "# T"])
         [lit "./markdown2html.py"; lit "in.md"; lit "out.html"]) = 0.
Proof.
  apply (proj2 (proj2 (exit_status_zero_iff
                         (one_file_world (lit "in.md") [lit "# T"])
                         [lit "./markdown2html.py"; lit "in.md";
                          lit "out.html"]))).
  split; [apply le_n|]. split; [reflexivity|].
  exists [lit "# T"], [lit "<h1>T</h1>"].
  split; [reflexivity|]. split; reflexivity.
Defined.

(** The script writes nothing but the converted document: whenever it opens
    a file for writing, the file is the output path, the input was read and
    converted, and the text is the fragments joined by line feeds. *)
Theorem only_the_conversion_is_written :
  forall (w : World) (argv : list str) (path text : str),
    In (OpenWrite path text) (fst (main w argv)) ->
    path = nth 2 argv []
    /\ exists lines html,
         readlines w (nth 1 argv []) = Ok lines
         /\ convert lines = Ok html
         /\ text = join [LF] html.
Proof.
  intros w argv path text. unfold main.
  destruct (length argv <? 3)%nat.
  { simpl. intros [H|[]]. discriminate. }
  destruct (isfile w (nth 1 argv [])); cbn [negb].
  2:{ simpl. intros [H|[]]. discriminate. }
  destruct (readlines w (nth 1 argv [])) as [lines|e] eqn:Hread.
  2:{ simpl. intros [H|[H|[]]]; discriminate. }
  destruct (convert lines) as [html|e] eqn:Hconv.
  2:{ simpl. intros [H|[H|[]]]; discriminate. }
  assert (Hgoal : OpenWrite (nth 2 argv []) (join [LF] html)
                  = OpenWrite path text ->
                  path = nth 2 argv []
                  /\ exists lines0 html0,
                       Ok lines = Ok lines0
                       /\ convert lines0 = Ok html0
                       /\ text = join [LF] html0).
  { intros [= <- <-]. split; [reflexivity|].
    exists lines, html. repeat split. exact Hconv. }
  destruct (write w (nth 2 argv []) (join [LF] html)) as [[]|e]; simpl.
  - intros [H|[H|[]]]; [discriminate|exact (Hgoal H)].
  - intros [H|[H|[H|[]]]]; [discriminate|exact (Hgoal H)|discriminate].
Qed.

Lemma only_the_conversion_is_written_witness :
  lit "out.html" = lit "out.html"
  /\ exists lines html,
       readlines (one_file_world (lit "in.md") [lit "# T"]) (lit "in.md")
       = Ok lines
       /\ convert lines = Ok html
       /\ lit "<h1>T</h1>" = join [LF] html.
Proof.
  apply (only_the_conversion_is_written
           (one_file_world (lit "in.md") [lit "# T"])
           [lit "./markdown2html.py"; lit "in.md"; lit "out.html"]
           (lit "out.html") (lit "<h1>T</h1>")).
  right. left. reflexivity.
Defined.

(** A run that fails says why: with exit status 1 the last thing the script
    does is to write a line to the error stream. *)
Theorem failure_is_reported :
  forall (w : World) (argv : list str),
    snd (main w argv) = 1 ->
    ends_with_error_line (fst (main w argv)).
Proof.
  intros w argv. unfold main, ends_with_error_line.
  destruct (length argv <? 3)%nat.
  { intros _. exists [], (lit "Usage: ./markdown2html.py README.md README.html").
    reflexivity. }
  destruct (isfile w (nth 1 argv [])); cbn [negb].
  2:{ intros _. exists [], (lit "Missing " ++ nth 1 argv []).
      rewrite <- app_assoc. reflexivity. }
  destruct (readlines w (nth 1 argv [])) as [lines|e].
  2:{ intros _. exists [OpenRead (nth 1 argv [])], (exn_str w e).
      reflexivity. }
  destruct (convert lines) as [html|e].
  2:{ intros _. exists [OpenRead (nth 1 argv [])], (exn_str w e).
      reflexivity. }
  destruct (write w (nth 2 argv []) (join [LF] html)) as [[]|e].
  - discriminate.
  - intros _.
    exists [OpenRead (nth 1 argv []);
            OpenWrite (nth 2 argv []) (join [LF] html)], (exn_str w e).
    reflexivity.
Qed.

Lemma failure_is_reported_witness :
  ends_with_error_line
    (fst (main empty_world
            [lit "./markdown2html.py"; lit "in.md"; lit "out.html"])).
Proof.
  apply (failure_is_reported empty_world
           [lit "./markdown2html.py"; lit "in.md"; lit "out.html"]).
  reflexivity.
Defined.

(** ** Exceptions of the transformer *)

(** A substitution raises only what its replacement raises. *)
Lemma sub_from_raise (open close : str) (repl : str -> result str) (e : exn) :
  forall (s : str) (k : nat),
    Re.sub_from open close repl k s = Raise e ->
    exists g, repl g = Raise e.
Proof.
  induction s as [|c s IH]; intros k; [discriminate|].
  destruct k as [|k]; simpl; [|apply IH].
  destruct (Re.match_at open close (c :: s)) as [g|].
  - destruct (repl g) as [x|e'] eqn:Ex.
    + cbn [bind].
      destruct (Re.sub_from open close repl _ s) as [y|e'] eqn:Ey;
        [discriminate|].
      intros [= <-]. exact (IH _ Ey).
    + intros [= <-]. exists g. exact Ex.
  - destruct (Re.sub_from open close repl 0 s) as [y|e'] eqn:Ey;
      [discriminate|].
    intros [= <-]. exact (IH _ Ey).
Qed.

Lemma encode_char_not_scalar (c : char) :
  Utf8.scalar c = false -> Utf8.encode_char c = None.
Proof.
  unfold Utf8.scalar, Utf8.encode_char, Utf8.is_surrogate. intros H.
  destruct (c <? 128) eqn:E1.
  { apply N.ltb_lt in E1. exfalso.
    assert (E : (c <=? 1114111) && negb ((55296 <=? c) && (c <=? 57343))
                = true).
    { apply andb_true_iff. split; [apply N.leb_le; lia|].
      apply negb_true_iff, andb_false_iff. left. apply N.leb_gt. lia. }
    congruence. }
  destruct (c <? 2048) eqn:E2.
  { apply N.ltb_lt in E2. exfalso.
    assert (E : (c <=? 1114111) && negb ((55296 <=? c) && (c <=? 57343))
                = true).
    { apply andb_true_iff. split; [apply N.leb_le; lia|].
      apply negb_true_iff, andb_false_iff. left. apply N.leb_gt. lia. }
    congruence. }
  destruct (c <? 65536) eqn:E3.
  { apply N.ltb_lt in E3.
    destruct ((55296 <=? c) && (c <=? 57343)); [reflexivity|].
    exfalso. rewrite andb_true_r in H. apply N.leb_gt in H. lia. }
  destruct (c <=? 1114111); [|reflexivity].
  apply N.ltb_ge in E3. simpl in H.
  apply negb_false_iff, andb_true_iff in H. destruct H as [_ H].
  apply N.leb_le in H. lia.
Qed.

Lemma encode_chars_not_encodable (s : str) :
  encodable s = false -> Utf8.encode_chars s = None.
Proof.
  induction s as [|c s IH]; [discriminate|]. cbn [encodable forallb].
  intros H. apply andb_false_iff in H. destruct H as [H|H]; simpl.
  - rewrite (encode_char_not_scalar c H). reflexivity.
  - fold (encodable s) in H. rewrite (IH H).
    destruct (Utf8.encode_char c); reflexivity.
Qed.

Lemma md5_hash_raise (g : str) (e : exn) :
  md5_hash g = Raise e -> e = UnicodeEncodeError g /\ encodable g = false.
Proof.
  unfold md5_hash, Utf8.encode. intros H.
  destruct (encodable g) eqn:Henc.
  - destruct (encode_total g Henc) as [bytes Hb]. unfold Utf8.encode in Hb.
    destruct (Utf8.encode_chars g); discriminate.
  - rewrite (encode_chars_not_encodable g Henc) in H.
    injection H as <-. split; reflexivity.
Qed.

(** [hashlib.md5(content.encode()).hexdigest()] is 32 lowercase hexadecimal
    digits for every string of Unicode scalar values; for any other string
    [md5_hash] raises the [UnicodeEncodeError] of [encode()]. *)
Theorem md5_hash_result :
  forall content : str,
    (encodable content = true ->
     exists digest,
       md5_hash content = Ok digest
       /\ length digest = 32%nat
       /\ Forall (fun c => is_hex c = true) digest)
    /\ (encodable content = false ->
        md5_hash content = Raise (UnicodeEncodeError content)).
Proof.
  intros content. split; intros H.
  - unfold md5_hash. destruct (encode_total content H) as [bytes ->].
    exists (MD5.hexdigest bytes). split; [reflexivity|].
    split; [apply hexdigest_length|apply hexdigest_is_hex].
  - unfold md5_hash, Utf8.encode.
    rewrite (encode_chars_not_encodable content H). reflexivity.
Qed.

Lemma md5_hash_result_witness :
  (exists digest,
     md5_hash [0x6e; 0x61; 0xef; 0x76; 0x65; 0x20; 0x20ac; 0x1f600]
     = Ok digest
     /\ length digest = 32%nat
     /\ Forall (fun c => is_hex c = true) digest)
  /\ md5_hash [97; 0xDFFF] = Raise (UnicodeEncodeError [97; 0xDFFF]).
Proof.
  split.
  - apply (proj1 (md5_hash_result
                    [0x6e; 0x61; 0xef; 0x76; 0x65; 0x20; 0x20ac; 0x1f600])).
    reflexivity.
  - apply (proj2 (md5_hash_result [97; 0xDFFF])). reflexivity.
Defined.

(** The classification never raises: the six levels of the loop are keys of
    [heading_levels]. *)
Lemma classify_returns (line : str) (ul ol p : bool) :
  exists r, classify line ul ol p = Ok r.
Proof.
  destruct (classify_at_most_one line ul ol p)
    as (fragment & ul' & ol' & p' & E & _).
  rewrite E. eexists. reflexivity.
Qed.

Lemma sub_never_raises (open close : str) (repl : str -> result str) :
  (forall g, exists x, repl g = Ok x) ->
  forall s, exists y, Re.sub open close repl s = Ok y.
Proof.
  intros Hrepl s.
  apply (sub_from_total open close repl (fun _ => True)).
  - intros g _. apply Hrepl.
  - apply Forall_forall. intros; exact I.
Qed.

(** The only exception [markdown_to_html_line] raises is the
    [UnicodeEncodeError] of a [[[...]]] span whose text [encode()] rejects;
    it never raises a [KeyError]. *)
Theorem transformer_raises_only_encode_error :
  forall (line : str) (ul ol p : bool) (e : exn),
    markdown_to_html_line line ul ol p = Raise e ->
    exists text, e = UnicodeEncodeError text /\ encodable text = false.
Proof.
  intros line ul ol p e. unfold markdown_to_html_line, inline_substitutions.
  destruct (sub_never_raises (lit "**") (lit "**")
              (fun g => Ok (lit "<b>" ++ g ++ lit "</b>"))
              ltac:(intros; eexists; reflexivity) line) as [l1 E1].
  unfold sub_bold at 1. rewrite E1. cbn [bind].
  destruct (sub_never_raises (lit "__") (lit "__")
              (fun g => Ok (lit "<em>" ++ g ++ lit "</em>"))
              ltac:(intros; eexists; reflexivity) l1) as [l2 E2].
  unfold sub_emphasis at 1. rewrite E2. cbn [bind].
  destruct (sub_md5 l2) as [l3|e'] eqn:E3; cbn [bind].
  - destruct (sub_never_raises (lit "((") (lit "))")
                (fun g => Ok (remove_c g))
                ltac:(intros; eexists; reflexivity) l3) as [l4 E4].
    unfold sub_remove_c at 1. rewrite E4. cbn [bind].
    destruct (classify_returns l4 ul ol p) as [r ->]. discriminate.
  - intros [= <-]. unfold sub_md5, Re.sub in E3.
    destruct (sub_from_raise _ _ _ _ _ _ E3) as [g Hg].
    exists g. apply md5_hash_raise, Hg.
Qed.

Lemma transformer_raises_only_encode_error_witness :
  exists text,
    UnicodeEncodeError [0xD800] = UnicodeEncodeError text
    /\ encodable text = false.
Proof.
  apply (transformer_raises_only_encode_error
           (lit "# [[" ++ [0xD800] ++ lit "]]") true false false).
  reflexivity.
Defined.

(** ** The bytes that are hashed *)

Lemma lor_byte (a b : N) : a < 256 -> b < 256 -> N.lor a b < 256.
Proof.
  intros Ha Hb.
  destruct (N.eq_dec a 0) as [->|Ha0]; [rewrite N.lor_0_l; exact Hb|].
  destruct (N.eq_dec b 0) as [->|Hb0]; [rewrite N.lor_0_r; exact Ha|].
  change 256 with (2 ^ 8) in *.
  apply N.log2_lt_pow2.
  - assert (H : N.lor a b <> 0).
    { intros H. apply N.lor_eq_0_iff in H. tauto. }
    lia.
  - rewrite N.log2_lor. apply N.max_lub_lt; apply N.log2_lt_pow2; lia.
Qed.

Lemma continuation_byte (x : N) : N.lor 128 (N.land x 63) < 256.
Proof.
  apply lor_byte; [reflexivity|].
  change 63 with (N.ones 6). rewrite N.land_ones.
  assert (H : x mod 2 ^ 6 < 2 ^ 6) by (apply N.mod_lt; discriminate).
  change (2 ^ 6) with 64 in *. lia.
Qed.

Lemma leading_byte (tag c shift bound : N) :
  tag < 256 -> bound <= 256 -> c < 2 ^ shift * bound ->
  N.lor tag (N.shiftr c shift) < 256.
Proof.
  intros Htag Hbound Hc. apply lor_byte; [exact Htag|].
  rewrite N.shiftr_div_pow2.
  assert (H : c / 2 ^ shift < bound)
    by (apply N.Div0.div_lt_upper_bound; exact Hc).
  lia.
Qed.

Lemma encode_char_bytes (c : char) (bs : list N) :
  Utf8.encode_char c = Some bs ->
  Forall (fun b => b < 256) bs /\ (1 <= length bs <= 4)%nat.
Proof.
  unfold Utf8.encode_char.
  destruct (c <? 128) eqn:E1.
  { apply N.ltb_lt in E1. intros [= <-]. split; [|simpl; lia].
    constructor; [lia|constructor]. }
  destruct (c <? 2048) eqn:E2.
  { apply N.ltb_lt in E2. intros [= <-]. split; [|simpl; lia].
    repeat constructor.
    - apply (leading_byte 192 c 6 32); [reflexivity|discriminate|exact E2].
    - apply continuation_byte. }
  destruct (c <? 65536) eqn:E3.
  { apply N.ltb_lt in E3. destruct (Utf8.is_surrogate c); [discriminate|].
    intros [= <-]. split; [|simpl; lia].
    repeat constructor; try apply continuation_byte.
    apply (leading_byte 224 c 12 16); [reflexivity|discriminate|exact E3]. }
  destruct (c <=? 1114111) eqn:E4; [|discriminate].
  apply N.leb_le in E4. intros [= <-]. split; [|simpl; lia].
  repeat constructor; try apply continuation_byte.
  apply (leading_byte 240 c 18 8); [reflexivity|discriminate|].
  change (2 ^ 18 * 8) with 2097152. lia.
Qed.

(** What [md5_hash] digests: [content.encode()] gives bytes, one to four
    for each character, and the text itself when it is ASCII. *)
Theorem encode_gives_bytes :
  (forall (content : str) (bytes : list N),
     Utf8.encode content = Ok bytes ->
     Forall (fun b => b < 256) bytes
     /\ (length content <= length bytes <= 4 * length content)%nat)
  /\ (forall content : str,
        Forall (fun c => c < 128) content ->
        Utf8.encode content = Ok content).
Proof.
  split.
  - intros content bytes. unfold Utf8.encode.
    destruct (Utf8.encode_chars content) as [bs|] eqn:E; [|discriminate].
    intros [= <-]. revert bs E.
    induction content as [|c s IH]; intros bs; simpl.
    + intros [= <-]. split; [constructor|simpl; lia].
    + destruct (Utf8.encode_char c) as [b1|] eqn:Ec; [|discriminate].
      destruct (Utf8.encode_chars s) as [b2|]; [|discriminate].
      intros [= <-]. destruct (encode_char_bytes c b1 Ec) as [Hb Hl].
      destruct (IH b2 eq_refl) as [Hb2 Hl2].
      split; [apply Forall_app; split; assumption|].
      rewrite length_app. lia.
  - intros content H. unfold Utf8.encode.
    assert (E : Utf8.encode_chars content = Some content).
    { induction H as [|c s Hc _ IH]; [reflexivity|]. simpl.
      unfold Utf8.encode_char.
      replace (c <? 128) with true by (symmetry; apply N.ltb_lt; exact Hc).
      rewrite IH. reflexivity. }
    rewrite E. reflexivity.
Qed.

Lemma encode_gives_bytes_witness :
  (Forall (fun b => b < 256) [0xe2; 0x82; 0xac; 0x61]
   /\ (2 <= 4 <= 4 * 2)%nat)
  /\ Utf8.encode (lit "abc") = Ok (lit "abc").
Proof.
  split.
  - apply (proj1 encode_gives_bytes [0x20ac; 0x61] [0xe2; 0x82; 0xac; 0x61]).
    reflexivity.
  - apply (proj2 encode_gives_bytes (lit "abc")).
    repeat constructor.
Defined.

(** ** [remove_c] *)

Lemma remove_c_not_In (c : char) (s : str) :
  (c =? 99) || (c =? 67) = true -> ~ In c (remove_c s).
Proof.
  intros Hc Hin. unfold remove_c in Hin. apply filter_In in Hin.
  destruct Hin as [_ H]. rewrite Hc in H. discriminate.
Qed.

Lemma remove_c_count (other : char) (s : str) :
  other <> 99 -> other <> 67 ->
  count_occ N.eq_dec (remove_c s) other = count_occ N.eq_dec s other.
Proof.
  intros H99 H67. induction s as [|c s IH]; [reflexivity|].
  unfold remove_c in *. simpl.
  destruct ((c =? 99) || (c =? 67)) eqn:Hc; simpl.
  - destruct (N.eq_dec c other) as [->|_]; [|exact IH].
    exfalso. apply orb_true_iff in Hc.
    destruct Hc as [Hc|Hc]; apply N.eqb_eq in Hc; congruence.
  - destruct (N.eq_dec c other); rewrite IH; reflexivity.
Qed.

Lemma remove_c_id (s : str) :
  ~ In 99 s -> ~ In 67 s -> remove_c s = s.
Proof.
  intros H99 H67. unfold remove_c. apply forallb_filter_id, forallb_forall.
  intros c Hc. apply negb_true_iff, orb_false_iff.
  split; apply N.eqb_neq; intros ->; tauto.
Qed.

(** [remove_c] leaves no [c] and no [C] and keeps every other character,
    in order: it commutes with concatenation, changes nothing in a text
    without [c] and [C], and applying it twice changes nothing more. *)
Theorem remove_c_removes_only_c :
  forall content : str,
    ~ In 99 (remove_c content)
    /\ ~ In 67 (remove_c content)
    /\ (forall other : char,
          other <> 99 -> other <> 67 ->
          count_occ N.eq_dec (remove_c content) other
          = count_occ N.eq_dec content other)
    /\ (forall more : str,
          remove_c (content ++ more) = remove_c content ++ remove_c more)
    /\ (~ In 99 content -> ~ In 67 content -> remove_c content = content)
    /\ remove_c (remove_c content) = remove_c content.
Proof.
  intros content.
  split; [apply remove_c_not_In; reflexivity|].
  split; [apply remove_c_not_In; reflexivity|].
  split; [intros other; apply remove_c_count|].
  split; [intros more; apply filter_app|].
  split; [apply remove_c_id|].
  apply remove_c_id; apply remove_c_not_In; reflexivity.
Qed.

Lemma remove_c_removes_only_c_witness :
  remove_c (lit "Cocoa cake") = lit "ooa ake"
  /\ remove_c (lit "tea") = lit "tea".
Proof.
  split; [reflexivity|].
  apply (proj1 (proj2 (proj2 (proj2 (proj2
           (remove_c_removes_only_c (lit "tea"))))))).
  - apply not_in_literal. reflexivity.
  - apply not_in_literal. reflexivity.
Defined.

(** ** Delimiters that form no span *)

Lemma occurs_app_r (p a t : str) :
  Re.occurs p (a ++ t) = false -> Re.occurs p t = false.
Proof.
  induction a as [|c a IH]; [trivial|].
  simpl. intros H. apply orb_false_iff in H. apply IH, H.
Qed.

Lemma occurs_app_l (p a t : str) :
  Re.occurs p t = true -> Re.occurs p (a ++ t) = true.
Proof.
  intros H. induction a as [|c a IH]; [exact H|].
  change (Re.occurs p ((c :: a) ++ t))
    with (startswith ((c :: a) ++ t) p || Re.occurs p (a ++ t)).
  rewrite IH. apply orb_true_r.
Qed.

Lemma occurs_here (p rest : str) : Re.occurs p (p ++ rest) = true.
Proof.
  destruct p as [|c p]; [destruct rest; reflexivity|].
  change (Re.occurs (c :: p) ((c :: p) ++ rest))
    with (startswith ((c :: p) ++ rest) (c :: p)
          || Re.occurs (c :: p) (p ++ rest)).
  rewrite startswith_app. reflexivity.
Qed.

Section Unmatched.

Variables o1 o2 c1 c2 : char.
Variable repl : str -> result str.

Local Abbreviation open := [o1; o2].
Local Abbreviation close := [c1; c2].
Local Abbreviation sub := (Re.sub open close repl).

(** Where no position matches, nothing is replaced. *)
Lemma sub_no_match (s : str) :
  (forall a u, s = a ++ u -> Re.match_at open close u = None) ->
  sub s = Ok s.
Proof.
  induction s as [|c s IH]; intros H; [reflexivity|].
  rewrite sub_copy by (apply (H []); reflexivity).
  rewrite IH; [reflexivity|].
  intros a u ->. apply (H (c :: a)). reflexivity.
Qed.

(** Without an opening delimiter nothing is replaced. *)
Lemma sub_no_opening (s : str) :
  Re.occurs open s = false -> sub s = Ok s.
Proof.
  intros H. apply sub_no_match. intros a u ->.
  apply occurs_app_r in H. unfold Re.match_at.
  destruct u as [|c u]; [reflexivity|].
  simpl in H. apply orb_false_iff in H. destruct H as [H _].
  simpl. rewrite H. reflexivity.
Qed.

(** A match has the closing delimiter behind the opening one. *)
Lemma match_at_occurs (u g : str) :
  Re.match_at open close u = Some g ->
  Re.occurs close (skipn 2 u) = true.
Proof.
  intros H. apply match_at_spec in H. destruct H as [_ [rest ->]].
  change (skipn 2 (open ++ g ++ close ++ rest)) with (g ++ close ++ rest).
  apply occurs_app_l, occurs_here.
Qed.

(** Behind an opening delimiter that no closing delimiter follows, nothing
    is replaced. *)
Lemma sub_unclosed (text : str) :
  Re.occurs close text = false ->
  sub (open ++ text) = Ok (open ++ text).
Proof.
  intros H. apply sub_no_match. intros a u E.
  destruct (Re.match_at open close u) as [g|] eqn:Hm; [|reflexivity].
  apply match_at_occurs in Hm.
  assert (Hsuffix : exists b, text = b ++ skipn 2 u).
  { destruct a as [|x [|y a]]; simpl in E.
    - subst u. exists []. reflexivity.
    - injection E as _ E. subst u. destruct text as [|z text].
      + exists []. reflexivity.
      + exists [z]. reflexivity.
    - injection E as _ _ E. subst text.
      destruct u as [|z [|z' u]].
      + exists a. reflexivity.
      + exists (a ++ [z]). simpl. rewrite <- app_assoc. reflexivity.
      + exists (a ++ [z; z']). simpl. rewrite <- app_assoc. reflexivity. }
  destruct Hsuffix as [b Hb]. rewrite Hb in H.
  apply occurs_app_r in H. congruence.
Qed.

Lemma sub_unclosed_after (pre text : str) :
  Re.occurs open (pre ++ [o2]) = false ->
  Re.occurs close text = false ->
  sub (pre ++ open ++ text) = Ok (pre ++ open ++ text).
Proof.
  intros Hpre H. rewrite sub_prefix by exact Hpre.
  rewrite sub_unclosed by exact H. reflexivity.
Qed.

End Unmatched.

(** Delimiter characters that do not come in pairs are ordinary text: a
    line in which none of [**], [__], [[[] and [((] occurs goes through the
    four substitutions unchanged. *)
Theorem single_delimiters_are_literal :
  forall line : str,
    Re.occurs (lit "**") line = false ->
    Re.occurs (lit "__") line = false ->
    Re.occurs (lit "[[") line = false ->
    Re.occurs (lit "((") line = false ->
    inline_substitutions line = Ok line.
Proof.
  intros line Hb He Hh Hs.
  unfold inline_substitutions, sub_bold, sub_emphasis, sub_md5, sub_remove_c.
  rewrite (sub_no_opening 42 42 42 42 _ line Hb). cbn [bind].
  rewrite (sub_no_opening 95 95 95 95 _ line He). cbn [bind].
  rewrite (sub_no_opening 91 91 93 93 _ line Hh). cbn [bind].
  rewrite (sub_no_opening 40 40 41 41 _ line Hs). reflexivity.
Qed.

Lemma single_delimiters_are_literal_witness :
  inline_substitutions (lit "a_b (c) [d] 2*3 *_*_ ([)]")
  = Ok (lit "a_b (c) [d] 2*3 *_*_ ([)]").
Proof.
  apply (single_delimiters_are_literal (lit "a_b (c) [d] 2*3 *_*_ ([)]"));
    reflexivity.
Defined.

(** An opening delimiter that no closing delimiter follows is ordinary
    text, for each of the four substitutions: the line is returned as it
    is. *)
Theorem unclosed_span_is_literal :
  forall pre text : str,
    (Re.occurs (lit "**") (pre ++ [42]) = false ->
     Re.occurs (lit "**") text = false ->
     sub_bold (pre ++ lit "**" ++ text) = Ok (pre ++ lit "**" ++ text))
    /\ (Re.occurs (lit "__") (pre ++ [95]) = false ->
        Re.occurs (lit "__") text = false ->
        sub_emphasis (pre ++ lit "__" ++ text)
        = Ok (pre ++ lit "__" ++ text))
    /\ (Re.occurs (lit "[[") (pre ++ [91]) = false ->
        Re.occurs (lit "]]") text = false ->
        sub_md5 (pre ++ lit "[[" ++ text) = Ok (pre ++ lit "[[" ++ text))
    /\ (Re.occurs (lit "((") (pre ++ [40]) = false ->
        Re.occurs (lit "))") text = false ->
        sub_remove_c (pre ++ lit "((" ++ text)
        = Ok (pre ++ lit "((" ++ text)).
Proof.
  intros pre text. repeat split; intros Hpre H.
  - exact (sub_unclosed_after 42 42 42 42 _ pre text Hpre H).
  - exact (sub_unclosed_after 95 95 95 95 _ pre text Hpre H).
  - exact (sub_unclosed_after 91 91 93 93 _ pre text Hpre H).
  - exact (sub_unclosed_after 40 40 41 41 _ pre text Hpre H).
Qed.

Lemma unclosed_span_is_literal_witness :
  sub_bold (lit "x ***") = Ok (lit "x ***")
  /\ sub_emphasis (lit "__init_") = Ok (lit "__init_")
  /\ sub_md5 (lit "a [[b] c]") = Ok (lit "a [[b] c]")
  /\ sub_remove_c (lit "f((x)") = Ok (lit "f((x)").
Proof.
  split; [|split; [|split]].
  - apply (proj1 (unclosed_span_is_literal (lit "x ") (lit "*")));
      reflexivity.
  - apply (proj1 (proj2 (unclosed_span_is_literal [] (lit "init_"))));
      reflexivity.
  - apply (proj1 (proj2 (proj2
             (unclosed_span_is_literal (lit "a ") (lit "b] c]")))));
      reflexivity.
  - apply (proj2 (proj2 (proj2
             (unclosed_span_is_literal (lit "f") (lit "x)")))));
      reflexivity.
Defined.

(** ** Spans and line feeds *)

Section LineFeed.

Variables o c : char.
Variable repl : str -> result str.
Hypothesis o_not_LF : o <> LF.
Hypothesis c_not_LF : c <> LF.

Local Abbreviation sub := (Re.sub [o; o] [c; c] repl).

(** The lazy group does not reach over a line feed. *)
Lemma lazy_group_line_feed (text rest : str) :
  ~ In c text -> Re.lazy_group [c; c] (text ++ LF :: rest) = None.
Proof.
  induction text as [|a text IH]; intros H.
  - change (Re.lazy_group [c; c] ([] ++ LF :: rest))
      with (if startswith (LF :: rest) [c; c] then Some []
            else if LF =? LF then None
                 else match Re.lazy_group [c; c] rest with
                      | Some g => Some (LF :: g)
                      | None => None
                      end).
    rewrite startswith_head by congruence. reflexivity.
  - change (Re.lazy_group [c; c] ((a :: text) ++ LF :: rest))
      with (if startswith (a :: text ++ LF :: rest) [c; c] then Some []
            else if a =? LF then None
                 else match Re.lazy_group [c; c] (text ++ LF :: rest) with
                      | Some g => Some (a :: g)
                      | None => None
                      end).
    rewrite startswith_head by (intros ->; apply H; left; reflexivity).
    rewrite IH by (intros Hin; apply H; right; exact Hin).
    destruct (a =? LF); reflexivity.
Qed.

(** An opening delimiter with a line feed before any closing delimiter
    opens no span: the text up to the line feed is kept. *)
Lemma sub_line_feed (pre text rest : str) :
  ~ In o pre -> ~ In o text -> ~ In c text ->
  sub (pre ++ [o; o] ++ text ++ LF :: rest)
  = (y <- sub rest ;; Ok (pre ++ [o; o] ++ text ++ LF :: y)).
Proof.
  intros Hpre Ho Hc.
  rewrite sub_prefix by (apply absent_occurs_snoc, Hpre).
  change ([o; o] ++ text ++ LF :: rest) with (o :: o :: text ++ LF :: rest).
  rewrite sub_copy.
  2:{ unfold Re.match_at. simpl startswith. rewrite !N.eqb_refl. simpl.
      apply lazy_group_line_feed, Hc. }
  assert (Hin : ~ In o (text ++ [LF])).
  { apply not_in_app; [exact Ho|]. intros [H|[]]. congruence. }
  assert (Hocc : Re.occurs [o; o] ((o :: text ++ [LF]) ++ [o]) = false).
  { change (Re.occurs [o; o] ((o :: text ++ [LF]) ++ [o]))
      with (startswith (o :: (text ++ [LF]) ++ [o]) [o; o]
            || Re.occurs [o; o] ((text ++ [LF]) ++ [o])).
    rewrite (absent_occurs_snoc o o _ Hin), orb_false_r.
    destruct text as [|a text]; cbn [app startswith];
      rewrite N.eqb_refl; cbn [andb].
    - replace (LF =? o) with false
        by (symmetry; apply N.eqb_neq; congruence).
      reflexivity.
    - replace (a =? o) with false; [reflexivity|].
      symmetry. apply N.eqb_neq. intros ->. apply Ho. left. reflexivity. }
  replace (o :: text ++ LF :: rest) with ((o :: text ++ [LF]) ++ rest)
    by (simpl; rewrite <- app_assoc; reflexivity).
  rewrite (sub_prefix o o c c repl _ rest Hocc).
  destruct (sub rest) as [y|e]; [|reflexivity]. cbn [bind].
  simpl. rewrite <- app_assoc. reflexivity.
Qed.

End LineFeed.

(** No span reaches over a line feed: when a line feed follows an opening
    delimiter before any closing one, the text up to the line feed is kept
    as it is and the substitution goes on behind it. *)
Theorem span_stops_at_line_feed :
  forall pre text rest : str,
    (~ In 42 pre -> ~ In 42 text ->
     sub_bold (pre ++ lit "**" ++ text ++ LF :: rest)
     = (y <- sub_bold rest ;; Ok (pre ++ lit "**" ++ text ++ LF :: y)))
    /\ (~ In 95 pre -> ~ In 95 text ->
        sub_emphasis (pre ++ lit "__" ++ text ++ LF :: rest)
        = (y <- sub_emphasis rest ;;
           Ok (pre ++ lit "__" ++ text ++ LF :: y)))
    /\ (~ In 91 pre -> ~ In 91 text -> ~ In 93 text ->
        sub_md5 (pre ++ lit "[[" ++ text ++ LF :: rest)
        = (y <- sub_md5 rest ;; Ok (pre ++ lit "[[" ++ text ++ LF :: y)))
    /\ (~ In 40 pre -> ~ In 40 text -> ~ In 41 text ->
        sub_remove_c (pre ++ lit "((" ++ text ++ LF :: rest)
        = (y <- sub_remove_c rest ;;
           Ok (pre ++ lit "((" ++ text ++ LF :: y))).
Proof.
  intros pre text rest. repeat split.
  - intros Hpre H.
    apply (sub_line_feed 42 42 _ ltac:(discriminate) ltac:(discriminate));
      assumption.
  - intros Hpre H.
    apply (sub_line_feed 95 95 _ ltac:(discriminate) ltac:(discriminate));
      assumption.
  - intros Hpre H H'.
    apply (sub_line_feed 91 93 _ ltac:(discriminate) ltac:(discriminate));
      assumption.
  - intros Hpre H H'.
    apply (sub_line_feed 40 41 _ ltac:(discriminate) ltac:(discriminate));
      assumption.
Qed.

Lemma span_stops_at_line_feed_witness :
  sub_bold (lit "**a" ++ LF :: lit "b**") = Ok (lit "**a" ++ LF :: lit "b**")
  /\ sub_md5 (lit "x [[a" ++ LF :: lit "]] [[]]")
     = Ok (lit "x [[a" ++ LF :: lit "]] d41d8cd98f00b204e9800998ecf8427e").
Proof.
  split.
  - refine (eq_trans
              (proj1 (span_stops_at_line_feed [] (lit "a") (lit "b**"))
                 (not_in_literal 42 [] eq_refl)
                 (not_in_literal 42 (lit "a") eq_refl)) _).
    vm_compute. reflexivity.
  - refine (eq_trans
              (proj1 (proj2 (proj2
                 (span_stops_at_line_feed (lit "x ") (lit "a")
                    (lit "]] [[]]"))))
                 (not_in_literal 91 (lit "x ") eq_refl)
                 (not_in_literal 91 (lit "a") eq_refl)
                 (not_in_literal 93 (lit "a") eq_refl)) _).
    vm_compute. reflexivity.
Defined.

(** ** The rules of the transformer in every state *)

(** A line that starts with [- ] is returned as the item [<li>text</li>],
    after [<ul>] and a line feed unless the unordered list is already open,
    and leaves only the unordered-list flag set; a line that starts with
    [* ] does the same for [<ol>] and the ordered-list flag.  The text is
    the rest of the line, rewritten and stripped, and nothing is closed,
    whatever was open. *)
Theorem list_item_rule :
  forall (rest rest' : str) (ul ol p : bool),
    inline_substitutions rest = Ok rest' ->
    markdown_to_html_line (lit "- " ++ rest) ul ol p
    = Ok (item_fragment "<ul>" ul (strip rest'), true, false, false)
    /\ markdown_to_html_line (lit "* " ++ rest) ul ol p
       = Ok (item_fragment "<ol>" ol (strip rest'), false, true, false).
Proof.
  intros rest rest' ul ol p E. unfold markdown_to_html_line. split.
  - rewrite inline_unordered_marker, E. cbn [bind].
    rewrite classify_unordered. reflexivity.
  - rewrite inline_ordered_marker, E. cbn [bind].
    rewrite classify_ordered. reflexivity.
Qed.

Lemma list_item_rule_witness :
  markdown_to_html_line (lit "- **two** ") true false false
  = Ok (lit "<li><b>two</b></li>", true, false, false)
  /\ markdown_to_html_line (lit "* **two** ") false false true
     = Ok (lit "<ol>" ++ [LF] ++ lit "<li><b>two</b></li>",
           false, true, false).
Proof.
  split.
  - apply (proj1 (list_item_rule (lit "**two** ") (lit "<b>two</b> ")
                    true false false eq_refl)).
  - apply (proj2 (list_item_rule (lit "**two** ") (lit "<b>two</b> ")
                    false false true eq_refl)).
Defined.

Lemma classify_flags (line : str) (ul ol p ul2 ol2 p2 : bool) :
  flags_of (classify line ul ol p) = flags_of (classify line ul2 ol2 p2).
Proof.
  unfold classify.
  destruct (heading_loop range_6_0 line); [reflexivity|].
  destruct (startswith line (lit "- ")); [destruct ul, ul2; reflexivity|].
  destruct (startswith line (lit "* ")); [destruct ol, ol2; reflexivity|].
  destruct (str_eqb line []).
  - destruct ul, ol, p, ul2, ol2, p2; reflexivity.
  - destruct p, p2; reflexivity.
Qed.

(** The flags after a line depend on the line alone, not on the flags
    before it: the same line leaves the same state (or raises) whatever
    block was open. *)
Theorem next_state_depends_on_line_only :
  forall (line : str) (ul ol p ul2 ol2 p2 : bool),
    flags_of (markdown_to_html_line line ul ol p)
    = flags_of (markdown_to_html_line line ul2 ol2 p2).
Proof.
  intros line ul ol p ul2 ol2 p2. unfold markdown_to_html_line.
  destruct (inline_substitutions line) as [line'|e]; [|reflexivity].
  apply classify_flags.
Qed.

(** ** Markers without text *)

Lemma lstrip_app_spaces (a b : str) :
  forallb isspace a = true -> lstrip (a ++ b) = lstrip b.
Proof.
  induction a as [|c a IH]; [reflexivity|]. simpl.
  intros H. apply andb_true_iff in H. destruct H as [Hc Ha].
  rewrite Hc. exact (IH Ha).
Qed.

Lemma forallb_rev {A} (f : A -> bool) (l : list A) :
  forallb f l = true -> forallb f (rev l) = true.
Proof.
  rewrite !forallb_forall. intros H x Hx. apply H, in_rev, Hx.
Qed.

Lemma rstrip_app_spaces (a b : str) :
  forallb isspace b = true -> rstrip (a ++ b) = rstrip a.
Proof.
  intros H. unfold rstrip. rewrite rev_app_distr.
  rewrite lstrip_app_spaces by (apply forallb_rev, H). reflexivity.
Qed.

(** Stripping a marker that only white space follows. *)
Lemma strip_marker (c : char) (marker ws : str) :
  isspace c = false ->
  forallb isspace ws = true ->
  strip ((c :: marker) ++ SPACE :: ws) = rstrip (c :: marker).
Proof.
  intros Hc Hws. unfold strip. simpl lstrip. rewrite Hc.
  change (c :: marker ++ SPACE :: ws) with ((c :: marker) ++ SPACE :: ws).
  apply rstrip_app_spaces. simpl. exact Hws.
Qed.

(** A marker with no text behind it is no marker: the driver strips the
    line before the transformer sees it, so [- ], [* ] and one to six [#]
    followed only by white space arrive as [-], [*] and [#...#] and are
    returned by the paragraph rule. *)
Theorem bare_marker_is_paragraph_text :
  forall (ws : str) (ul ol p : bool),
    forallb isspace ws = true ->
    markdown_to_html_line (strip (lit "- " ++ ws)) ul ol p
    = Ok (paragraph_fragment p (lit "-"), false, false, true)
    /\ markdown_to_html_line (strip (lit "* " ++ ws)) ul ol p
       = Ok (paragraph_fragment p (lit "*"), false, false, true)
    /\ (forall level : nat,
          (1 <= level <= 6)%nat ->
          markdown_to_html_line (strip (hashes level ++ SPACE :: ws)) ul ol p
          = Ok (paragraph_fragment p (hashes level), false, false, true)).
Proof.
  intros ws ul ol p Hws. split; [|split].
  - change (lit "- " ++ ws) with ((45 :: []) ++ SPACE :: ws).
    rewrite strip_marker by (reflexivity || exact Hws).
    destruct p; reflexivity.
  - change (lit "* " ++ ws) with ((42 :: []) ++ SPACE :: ws).
    rewrite strip_marker by (reflexivity || exact Hws).
    destruct p; reflexivity.
  - intros level H.
    destruct level as [|[|[|[|[|[|[|level]]]]]]]; try lia;
      match goal with
      | |- context [hashes (S ?k) ++ _] =>
        change (hashes (S k) ++ SPACE :: ws)
          with ((HASH :: hashes k) ++ SPACE :: ws)
      end;
      rewrite strip_marker by (reflexivity || exact Hws);
      destruct p; reflexivity.
Qed.

Lemma bare_marker_is_paragraph_text_witness :
  markdown_to_html_line (strip (lit "-  " ++ [LF])) true false false
  = Ok (lit "<p>" ++ [LF] ++ lit "    -", false, false, true)
  /\ markdown_to_html_line (strip (lit "## " ++ [LF])) false false true
     = Ok (lit "    <br />" ++ [LF] ++ lit "    ##", false, false, true).
Proof.
  split.
  - apply (proj1 (bare_marker_is_paragraph_text (lit " " ++ [LF])
                    true false false eq_refl)).
  - apply (proj2 (proj2 (bare_marker_is_paragraph_text [LF]
                           false false true eq_refl)) 2%nat).
    split; repeat constructor.
Defined.

(** ** The loop over the lines *)

Lemma scan_app (l1 l2 : list str) :
  forall (html_content : list str) (ul ol p : bool),
    scan (l1 ++ l2) html_content ul ol p
    = (r <- scan l1 html_content ul ol p ;;
       let '(html_content', ul', ol', p') := r in
       scan l2 html_content' ul' ol' p').
Proof.
  induction l1 as [|line l1 IH]; intros html_content ul ol p.
  - reflexivity.
  - cbn [app scan].
    destruct (markdown_to_html_line (strip line) ul ol p)
      as [[[[fragment ul'] ol'] p']|e]; [|reflexivity].
    cbn [bind]. apply IH.
Qed.

(** The conversion is one pass: scanning a document followed by more lines
    is scanning the document and going on with the further lines from the
    fragments and the flags reached, and an exception in the first part is
    the exception of the whole. *)
Theorem scan_continues :
  forall (lines more : list str) (html_content : list str) (ul ol p : bool),
    scan (lines ++ more) html_content ul ol p
    = match scan lines html_content ul ol p with
      | Ok (html_content', ul', ol', p') => scan more html_content' ul' ol' p'
      | Raise e => Raise e
      end.
Proof.
  intros lines more html_content ul ol p. rewrite scan_app.
  destruct (scan lines html_content ul ol p) as [[[[h a] b] c]|e];
    reflexivity.
Qed.

Lemma blank_strip (line : str) : blank line = true -> strip line = [].
Proof. unfold blank. apply str_eqb_nil. Qed.

Lemma scan_blank_lines (blanks : list str) :
  forallb blank blanks = true ->
  forall (html_content : list str) (ul ol p : bool),
    scan blanks html_content ul ol p
    = Ok (match blanks with
          | [] => (html_content, ul, ol, p)
          | _ :: _ => (html_content ++ closing_tag ul ol p, false, false, false)
          end).
Proof.
  induction blanks as [|line rest IH]; intros H html_content ul ol p;
    [reflexivity|].
  cbn [forallb] in H. apply andb_true_iff in H. destruct H as [Hl Hrest].
  cbn [scan]. rewrite (blank_strip line Hl).
  unfold markdown_to_html_line.
  change (inline_substitutions []) with (Ok (@nil char)). cbn [bind].
  rewrite classify_empty. cbn [bind].
  rewrite (IH Hrest). destruct rest as [|line' rest'].
  - destruct ul, ol, p; cbn; rewrite ?app_nil_r; reflexivity.
  - destruct ul, ol, p; cbn; rewrite ?app_nil_r; reflexivity.
Qed.

(** A run of blank lines closes the open block once: the first blank line
    gives the closing tag of the block that is open (looking at the
    unordered list, the ordered list, the paragraph, in this order), the
    others give nothing, and the three flags are cleared. *)
Theorem blank_lines_close_once :
  forall (line : str) (more : list str) (html_content : list str)
         (ul ol p : bool),
    forallb blank (line :: more) = true ->
    scan (line :: more) html_content ul ol p
    = Ok (html_content ++ closing_tag ul ol p, false, false, false).
Proof.
  intros line more html_content ul ol p H.
  exact (scan_blank_lines (line :: more) H html_content ul ol p).
Qed.

Lemma blank_lines_close_once_witness :
  scan [lit "  " ++ [LF]; [LF]; [0x3000; 0xA0]]
       [lit "<ol>" ++ [LF] ++ lit "<li>a</li>"] false true false
  = Ok ([lit "<ol>" ++ [LF] ++ lit "<li>a</li>"; lit "</ol>"],
        false, false, false).
Proof.
  apply (blank_lines_close_once (lit "  " ++ [LF]) [[LF]; [0x3000; 0xA0]]
           [lit "<ol>" ++ [LF] ++ lit "<li>a</li>"] false true false).
  reflexivity.
Defined.

(** Blank lines before the first line and after the last line of a
    document do not change its conversion. *)
Theorem blank_lines_around_are_ignored :
  forall lines blanks : list str,
    forallb blank blanks = true ->
    convert (blanks ++ lines) = convert lines
    /\ convert (lines ++ blanks) = convert lines.
Proof.
  intros lines blanks H. unfold convert. split.
  - rewrite scan_app, (scan_blank_lines blanks H). cbn [bind].
    destruct blanks; reflexivity.
  - rewrite scan_app.
    pose proof (scan_at_most_one lines [] false false false eq_refl) as Hinv.
    destruct (scan lines [] false false false)
      as [[[[html_content ul] ol] p]|e]; [|reflexivity].
    cbn [bind]. rewrite (scan_blank_lines blanks H). cbn [bind].
    destruct blanks as [|line more]; [reflexivity|].
    rewrite (close_open_blocks_closing_tag _ _ _ _ Hinv).
    unfold close_open_blocks. reflexivity.
Qed.

Lemma blank_lines_around_are_ignored_witness :
  convert ([[LF]; lit " " ++ [LF]] ++ [lit "- a" ++ [LF]])
  = convert [lit "- a" ++ [LF]]
  /\ convert ([lit "- a" ++ [LF]] ++ [[LF]; lit " " ++ [LF]])
     = convert [lit "- a" ++ [LF]].
Proof.
  apply (blank_lines_around_are_ignored [lit "- a" ++ [LF]]
           [[LF]; lit " " ++ [LF]]).
  reflexivity.
Defined.

(** What a scan adds to the fragments: at most one fragment for each line,
    none of them empty. *)
Lemma scan_adds (lines : list str) :
  forall (html_content out : list str) (ul ol p ul' ol' p' : bool),
    scan lines html_content ul ol p = Ok (out, ul', ol', p') ->
    exists added,
      out = html_content ++ added
      /\ Forall (fun f => f <> []) added
      /\ (length added <= length lines)%nat.
Proof.
  induction lines as [|line rest IH];
    intros html_content out ul ol p ul' ol' p'.
  - intros [= <- <- <- <-]. exists []. rewrite app_nil_r.
    repeat split; constructor.
  - cbn [scan].
    destruct (markdown_to_html_line (strip line) ul ol p)
      as [[[[fragment a] b] c]|e]; [|discriminate].
    cbn [bind]. intros H. apply IH in H. destruct H as (added & -> & Hne & Hlen).
    destruct fragment as [|ch fragment]; cbn [truthy].
    + exists added. repeat split; [exact Hne|simpl; lia].
    + exists ((ch :: fragment) :: added). rewrite <- app_assoc.
      repeat split; [constructor; [discriminate|exact Hne]|simpl; lia].
Qed.

Lemma closing_tag_facts (ul ol p : bool) :
  Forall (fun f => f <> []) (closing_tag ul ol p)
  /\ (length (closing_tag ul ol p) <= 1)%nat.
Proof.
  destruct ul, ol, p; split; simpl; try lia;
    repeat constructor; discriminate.
Qed.

(** No fragment of a converted document is empty, and there are at most as
    many fragments as lines, plus one for the closing tag at the end. *)
Theorem fragments_nonempty_and_bounded :
  forall (lines html : list str),
    convert lines = Ok html ->
    Forall (fun f => f <> []) html
    /\ (length html <= length lines + 1)%nat.
Proof.
  intros lines html. unfold convert.
  pose proof (scan_at_most_one lines [] false false false eq_refl) as Hinv.
  destruct (scan lines [] false false false)
    as [[[[out ul] ol] p]|e] eqn:E; [|discriminate].
  cbn [bind]. rewrite (close_open_blocks_closing_tag _ _ _ _ Hinv).
  intros [= <-]. apply scan_adds in E.
  destruct E as (added & -> & Hne & Hlen).
  destruct (closing_tag_facts ul ol p) as [Hc Hl].
  split.
  - apply Forall_app. split; [exact Hne|exact Hc].
  - rewrite length_app. simpl in *. lia.
Qed.

Lemma fragments_nonempty_and_bounded_witness :
  Forall (fun f => f <> [])
    [lit "<ul>" ++ [LF] ++ lit "<li>a</li>"; lit "</ul>"]
  /\ (2 <= 2 + 1)%nat.
Proof.
  apply (fragments_nonempty_and_bounded [lit "- a" ++ [LF]; [LF]]
           [lit "<ul>" ++ [LF] ++ lit "<li>a</li>"; lit "</ul>"]).
  reflexivity.
Defined.

(** Nothing closes what a heading interrupts: when the last line of a
    document is a heading, the conversion ends with the heading element
    and no closing tag follows, whatever block the lines before it left
    open. *)
Theorem heading_at_the_end_closes_nothing :
  forall (lines : list str) (last rest : str) (level : nat)
         (html_content : list str) (ul ol p : bool),
    scan lines [] false false false = Ok (html_content, ul, ol, p) ->
    inline_substitutions (strip last) = Ok (hashes level ++ SPACE :: rest) ->
    (1 <= level <= 6)%nat ->
    convert (lines ++ [last])
    = Ok (html_content ++ [heading level (strip rest)]).
Proof.
  intros lines last rest level html_content ul ol p Hscan Hinline Hlevel.
  unfold convert. rewrite scan_app, Hscan. cbn [bind scan].
  unfold markdown_to_html_line. rewrite Hinline. cbn [bind].
  rewrite (classify_heading level rest ul ol p Hlevel). cbn [bind].
  replace (truthy (heading level (strip rest))) with true; [reflexivity|].
  reflexivity.
Qed.

Lemma heading_at_the_end_closes_nothing_witness :
  convert ([lit "- a" ++ [LF]; lit "- b" ++ [LF]] ++ [lit "## End" ++ [LF]])
  = Ok ([lit "<ul>" ++ [LF] ++ lit "<li>a</li>"; lit "<li>b</li>"]
        ++ [lit "<h2>End</h2>"]).
Proof.
  apply (heading_at_the_end_closes_nothing
           [lit "- a" ++ [LF]; lit "- b" ++ [LF]] (lit "## End" ++ [LF])
           (lit "End") 2%nat
           [lit "<ul>" ++ [LF] ++ lit "<li>a</li>"; lit "<li>b</li>"]
           true false false eq_refl eq_refl).
  split; repeat constructor.
Defined.

(** ** The text that is written *)

Lemma ends_with_line_feed_app (a b : str) :
  b <> [] -> ends_with_line_feed (a ++ b) = ends_with_line_feed b.
Proof.
  intros Hb. unfold ends_with_line_feed. rewrite rev_app_distr.
  destruct (rev b) as [|c r] eqn:E; [|reflexivity].
  exfalso. apply Hb. rewrite <- (rev_involutive b), E. reflexivity.
Qed.

Lemma no_line_feed_end (s : str) :
  ~ In LF s -> ends_with_line_feed s = false.
Proof.
  intros H. unfold ends_with_line_feed.
  destruct (rev s) as [|c r] eqn:E; [reflexivity|].
  apply N.eqb_neq. intros ->. apply H, in_rev. rewrite E. left. reflexivity.
Qed.

Lemma no_line_feed_In (s : str) : no_line_feed s <-> ~ In LF s.
Proof.
  unfold no_line_feed. rewrite Forall_forall. split.
  - intros H Hin. exact (H LF Hin eq_refl).
  - intros H c Hc ->. exact (H Hc).
Qed.

Lemma sub_no_line_feed (open close : str) (repl : str -> result str) :
  (forall g x, no_line_feed g -> repl g = Ok x -> no_line_feed x) ->
  forall s y,
    no_line_feed s -> Re.sub open close repl s = Ok y -> no_line_feed y.
Proof.
  intros Hrepl s y Hs Hy.
  exact (sub_from_Forall open close repl (fun c => c <> LF) Hrepl
           s 0%nat y Hs Hy).
Qed.

(** The substitutions bring no line feed into a line. *)
Lemma inline_no_line_feed (line line' : str) :
  no_line_feed line ->
  inline_substitutions line = Ok line' ->
  no_line_feed line'.
Proof.
  intros H. unfold inline_substitutions.
  destruct (sub_bold line) as [l1|e] eqn:E1; [|discriminate]. cbn [bind].
  destruct (sub_emphasis l1) as [l2|e] eqn:E2; [|discriminate]. cbn [bind].
  destruct (sub_md5 l2) as [l3|e] eqn:E3; [|discriminate]. cbn [bind].
  destruct (sub_remove_c l3) as [l4|e] eqn:E4; [|discriminate]. cbn [bind].
  intros [= <-].
  assert (Htag : forall a g b : str,
             no_line_feed a -> no_line_feed b -> no_line_feed g ->
             no_line_feed (a ++ g ++ b)).
  { intros a g b Ha Hb Hg. unfold no_line_feed. rewrite !Forall_app. tauto. }
  apply (sub_no_line_feed _ _ _) with (s := line) (y := l1) in E1;
    [|intros g x Hg [= <-]; apply (Htag (lit "<b>") g (lit "</b>"));
      [repeat constructor; discriminate..|exact Hg]|exact H].
  apply (sub_no_line_feed _ _ _) with (s := l1) (y := l2) in E2;
    [|intros g x Hg [= <-]; apply (Htag (lit "<em>") g (lit "</em>"));
      [repeat constructor; discriminate..|exact Hg]|exact E1].
  apply (sub_no_line_feed _ _ _) with (s := l2) (y := l3) in E3;
    [| |exact E2].
  2:{ intros g x Hg Hx. apply md5_hash_inv in Hx. destruct Hx as [bytes ->].
      apply no_line_feed_In, hexdigest_absent. reflexivity. }
  apply (sub_no_line_feed _ _ _) with (s := l3) (y := l4) in E4;
    [exact E4| |exact E3].
  intros g x Hg [= <-]. apply remove_c_Forall, Hg.
Qed.

Lemma app_not_nil_r (a b : str) : b <> [] -> a ++ b <> [].
Proof. intros Hb H. apply app_eq_nil in H. tauto. Qed.

Lemma ends_with_line_feed_cons (c : char) (s : str) :
  s <> [] -> ends_with_line_feed (c :: s) = ends_with_line_feed s.
Proof. apply (ends_with_line_feed_app [c]). Qed.

(** The end of a concatenation is the end of its last part. *)
Ltac last_part :=
  rewrite ?app_comm_cons;
  repeat (rewrite ends_with_line_feed_app
           by (repeat apply app_not_nil_r;
               first [discriminate | assumption]));
  repeat (rewrite ends_with_line_feed_cons
           by (first [discriminate | assumption])).

(** No fragment the classification returns ends with a line feed, when the
    line has none. *)
Lemma classify_fragment_end (line fragment : str) (ul ol p ul' ol' p' : bool) :
  no_line_feed line ->
  classify line ul ol p = Ok (fragment, ul', ol', p') ->
  ends_with_line_feed fragment = false.
Proof.
  intros Hline. unfold classify.
  destruct (heading_loop range_6_0 line) as [r|] eqn:E.
  - revert E. unfold range_6_0.
    cbn [heading_loop heading_levels format fst snd].
    repeat match goal with
           | |- context [if ?b then _ else _] => destruct b
           end;
      intros [= <-]; intros [= <- <- <- <-]; unfold format; cbn [fst snd];
      last_part; reflexivity.
  - cbv zeta. destruct (startswith line (lit "- ")).
    { destruct (negb ul); intros [= <- <- <- <-]; last_part; reflexivity. }
    destruct (startswith line (lit "* ")).
    { destruct (negb ol); intros [= <- <- <- <-]; last_part; reflexivity. }
    destruct (str_eqb line []) eqn:Hnil.
    { destruct ul, ol, p; intros [= <- <- <- <-]; reflexivity. }
    assert (Hne : line <> []).
    { intros ->. discriminate. }
    destruct (negb p); intros [= <- <- <- <-]; last_part;
      apply no_line_feed_end, no_line_feed_In, Hline.
Qed.

Lemma scan_fragment_ends (lines : list str) :
  Forall (fun l => ~ In LF (strip l)) lines ->
  forall (html_content out : list str) (ul ol p ul' ol' p' : bool),
    scan lines html_content ul ol p = Ok (out, ul', ol', p') ->
    exists added,
      out = html_content ++ added
      /\ Forall (fun f => f <> [] /\ ends_with_line_feed f = false) added.
Proof.
  induction 1 as [|line rest Hline _ IH];
    intros html_content out ul ol p ul' ol' p'.
  - intros [= <- <- <- <-]. exists []. rewrite app_nil_r.
    split; constructor.
  - cbn [scan]. unfold markdown_to_html_line.
    destruct (inline_substitutions (strip line)) as [line'|e] eqn:Ei;
      [|discriminate].
    cbn [bind].
    destruct (classify line' ul ol p) as [[[[fragment a] b] c]|e] eqn:Ec;
      [|discriminate].
    cbn [bind]. intros H. apply IH in H. destruct H as (added & -> & Hadded).
    apply classify_fragment_end in Ec;
      [|exact (inline_no_line_feed _ _
                 (proj2 (no_line_feed_In _) Hline) Ei)].
    destruct fragment as [|ch fragment]; cbn [truthy].
    + exists added. split; [reflexivity|exact Hadded].
    + exists ((ch :: fragment) :: added). rewrite <- app_assoc.
      split; [reflexivity|].
      constructor; [split; [discriminate|exact Ec]|exact Hadded].
Qed.

Lemma join_end (sep : str) (parts : list str) :
  Forall (fun f => f <> [] /\ ends_with_line_feed f = false) parts ->
  ends_with_line_feed (join sep parts) = false
  /\ (parts <> [] -> join sep parts <> []).
Proof.
  induction 1 as [|f rest [Hf He] Hrest [IHe IHne]].
  - split; [reflexivity|]. intros H. exfalso. apply H. reflexivity.
  - destruct rest as [|g rest].
    + split; [exact He|intros _; exact Hf].
    + change (join sep (f :: g :: rest))
        with (f ++ sep ++ join sep (g :: rest)).
      split.
      * rewrite app_assoc, ends_with_line_feed_app; [exact IHe|].
        apply IHne. discriminate.
      * intros _ H. apply app_eq_nil in H. tauto.
Qed.

(** The output has no trailing newline: when no stripped line holds a line
    feed, as for the lines [readlines] returns, the text the script writes
    does not end with a line feed. *)
Theorem no_trailing_newline :
  forall (lines html : list str),
    Forall (fun l => ~ In LF (strip l)) lines ->
    convert lines = Ok html ->
    ends_with_line_feed (join [LF] html) = false.
Proof.
  intros lines html Hlines. unfold convert.
  pose proof (scan_at_most_one lines [] false false false eq_refl) as Hinv.
  destruct (scan lines [] false false false)
    as [[[[out ul] ol] p]|e] eqn:E; [|discriminate].
  cbn [bind]. rewrite (close_open_blocks_closing_tag _ _ _ _ Hinv).
  intros [= <-]. apply (scan_fragment_ends lines Hlines) in E.
  destruct E as (added & -> & Hadded). apply join_end.
  apply Forall_app. split; [exact Hadded|].
  destruct ul, ol, p; repeat constructor; discriminate.
Qed.

Lemma no_trailing_newline_witness :
  ends_with_line_feed
    (join [LF] [lit "<p>" ++ [LF] ++ lit "    a"; lit "</p>";
                lit "<ul>" ++ [LF] ++ lit "<li>b</li>"; lit "</ul>"])
  = false.
Proof.
  apply (no_trailing_newline
           [lit "a" ++ [LF]; [LF]; lit "- b" ++ [LF]]).
  - repeat constructor; apply not_in_literal; reflexivity.
  - reflexivity.
Defined.

(** ** Documents that are one list *)

(** Further items of a list that is open. *)
Lemma scan_unordered_items (lines texts : list str) :
  Forall2 (fun line text =>
             inline_substitutions (strip line) = Ok (lit "- " ++ text))
          lines texts ->
  forall html_content : list str,
    scan lines html_content true false false
    = Ok (html_content
          ++ map (fun text => lit "<li>" ++ strip text ++ lit "</li>") texts,
          true, false, false).
Proof.
  induction 1 as [|line text lines texts E _ IH]; intros html_content.
  - cbn [scan map]. rewrite app_nil_r. reflexivity.
  - cbn [scan map]. unfold markdown_to_html_line. rewrite E. cbn [bind].
    rewrite classify_unordered. cbn [bind]. cbv iota.
    change (truthy ([] ++ lit "<li>" ++ strip text ++ lit "</li>")) with true.
    cbv iota. rewrite IH, <- app_assoc. reflexivity.
Qed.

Lemma scan_ordered_items (lines texts : list str) :
  Forall2 (fun line text =>
             inline_substitutions (strip line) = Ok (lit "* " ++ text))
          lines texts ->
  forall html_content : list str,
    scan lines html_content false true false
    = Ok (html_content
          ++ map (fun text => lit "<li>" ++ strip text ++ lit "</li>") texts,
          false, true, false).
Proof.
  induction 1 as [|line text lines texts E _ IH]; intros html_content.
  - cbn [scan map]. rewrite app_nil_r. reflexivity.
  - cbn [scan map]. unfold markdown_to_html_line. rewrite E. cbn [bind].
    rewrite classify_ordered. cbn [bind]. cbv iota.
    change (truthy ([] ++ lit "<li>" ++ strip text ++ lit "</li>")) with true.
    cbv iota. rewrite IH, <- app_assoc. reflexivity.
Qed.

(** A document whose lines all are items of one kind of list is converted
    to one list: the first item after the opening tag, one [<li>] element
    for each further line, and the closing tag from the end of the
    document. *)
Theorem list_document :
  forall (line : str) (more : list str) (text : str) (texts : list str),
    (Forall2 (fun l t => inline_substitutions (strip l) = Ok (lit "- " ++ t))
       (line :: more) (text :: texts) ->
     convert (line :: more)
     = Ok ((lit "<ul>" ++ [LF] ++ lit "<li>" ++ strip text ++ lit "</li>")
           :: map (fun t => lit "<li>" ++ strip t ++ lit "</li>") texts
           ++ [lit "</ul>"]))
    /\ (Forall2 (fun l t =>
                   inline_substitutions (strip l) = Ok (lit "* " ++ t))
          (line :: more) (text :: texts) ->
        convert (line :: more)
        = Ok ((lit "<ol>" ++ [LF] ++ lit "<li>" ++ strip text ++ lit "</li>")
              :: map (fun t => lit "<li>" ++ strip t ++ lit "</li>") texts
              ++ [lit "</ol>"])).
Proof.
  intros line more text texts. split; intros H; inversion H as [|? ? ? ? E Hmore];
    subst; unfold convert; cbn [scan]; unfold markdown_to_html_line;
    rewrite E; cbn [bind].
  - rewrite classify_unordered. cbn [bind].
    change (truthy (_ ++ lit "<li>" ++ strip text ++ lit "</li>")) with true.
    cbv iota.
    rewrite (scan_unordered_items more texts Hmore). reflexivity.
  - rewrite classify_ordered. cbn [bind].
    change (truthy (_ ++ lit "<li>" ++ strip text ++ lit "</li>")) with true.
    cbv iota.
    rewrite (scan_ordered_items more texts Hmore). reflexivity.
Qed.

Lemma list_document_witness :
  convert [lit "- a" ++ [LF]; lit "- **b**" ++ [LF]; lit "-  c  "]
  = Ok [lit "<ul>" ++ [LF] ++ lit "<li>a</li>"; lit "<li><b>b</b></li>";
        lit "<li>c</li>"; lit "</ul>"].
Proof.
  refine (eq_trans
            (proj1 (list_document (lit "- a" ++ [LF])
                      [lit "- **b**" ++ [LF]; lit "-  c  "]
                      (lit "a") [lit "<b>b</b>"; lit " c"]) _) _).
  - repeat constructor.
  - reflexivity.
Defined.
